(** * allele_count_graph.py: a shallow embedding and its properties

    The script reads a dataset (a dict from sample identifier to a record
    with a genotype and two allele counts), groups the samples by genotype
    and draws them through matplotlib's pyplot interface.

    Python values are embedded as follows.
    - int: [Z]; float: the kernel's binary64 [float]; str: [string].
    - A dict is an association list in insertion order; a dict object never
      holds a key twice, which is the predicate [dict_wf].
    - A record of the dataset ([{"genotype": .., "allele_1_count": ..,
      "allele_2_count": ..}]) is the Rocq record [Sample].
    - An uncaught exception is the [Raise] case of [Result]; the effects on
      pyplot's global state, on the dataset object and on the disk are state
      passing over [World], and a raised exception keeps the state reached
      so far.
    - Python ints are unbounded, matplotlib's numbers are not: plt.scatter
      and plt.plot raise OverflowError on a count that has no float, and
      plt.ylim raises TypeError on a limit that fits neither int64 nor
      uint64. *)

From Stdlib Require Import String Ascii List ZArith Lia Bool Permutation.
From Stdlib Require Import Floats Uint63.
From ExtLib Require Import Structures.Monad.
Import ListNotations.
Import MonadNotation.

Local Open Scope string_scope.
Local Open Scope Z_scope.
Local Open Scope monad_scope.

(* ------------------------------------------------------------------ *)
(** ** Exceptions and results *)

Inductive PyExn : Type :=
| KeyError (key : string)
| ValueError
| FileNotFoundError (path : string)
| JSONDecodeError (path : string)
| OverflowError
| TypeError.

Inductive Result (A : Type) : Type :=
| Ok (a : A)
| Raise (e : PyExn).

Arguments Ok {A} a.
Arguments Raise {A} e.

#[global] Instance Monad_Result : Monad Result :=
  {| ret := fun _ a => Ok a;
     bind := fun _ _ c k => match c with Ok a => k a | Raise e => Raise e end |}.

(* ------------------------------------------------------------------ *)
(** ** Python built-ins used by the script *)

Module Py.

(** A dict with string keys, in insertion order. *)
Definition dict (V : Type) : Type := list (string * V).

Definition keys {V} (d : dict V) : list string := map fst d.
Definition values {V} (d : dict V) : list V := map snd d.

(** [d[k]]: the value stored under [k], or KeyError. *)
Fixpoint getitem {V} (d : dict V) (k : string) : Result V :=
  match d with
  | [] => Raise (KeyError k)
  | (k', v) :: d' => if String.eqb k' k then Ok v else getitem d' k
  end.

Fixpoint nodupb (l : list string) : bool :=
  match l with
  | [] => true
  | k :: l' => negb (existsb (String.eqb k) l') && nodupb l'
  end.

(** The invariant of a dict object: no key occurs twice. *)
Definition dict_wf {V} (d : dict V) : bool := nodupb (keys d).

(** [[f(a) for a in l if cond(a)]], where both [f] and [cond] may raise. *)
Fixpoint list_comp {A B} (f : A -> Result B) (cond : A -> Result bool)
         (l : list A) : Result (list B) :=
  match l with
  | [] => Ok []
  | a :: l' =>
      c <- cond a ;;
      if (c : bool)
      then b <- f a ;; rest <- list_comp f cond l' ;; ret (b :: rest)
      else list_comp f cond l'
  end.

(** [{key(a): val(a) for a in l}] for pairwise different keys. *)
Fixpoint dict_comp {A V} (key : A -> string) (val : A -> Result V)
         (l : list A) : Result (dict V) :=
  match l with
  | [] => Ok []
  | a :: l' => v <- val a ;; rest <- dict_comp key val l' ;;
               ret ((key a, v) :: rest)
  end.

(** [max(iterable)]: the first of the greatest items; ValueError when the
    iterable is empty. [gt] is the items' [>]. *)
Definition max {A} (gt : A -> A -> bool) (l : list A) : Result A :=
  match l with
  | [] => Raise ValueError
  | a :: l' => Ok (fold_left (fun best x => if gt x best then x else best) l' a)
  end.

(** [a > b] on lists of ints: lexicographic. *)
Fixpoint list_gt (a b : list Z) : bool :=
  match a, b with
  | x :: a', y :: b' => if x =? y then list_gt a' b' else x >? y
  | _ :: _, [] => true
  | [], _ => false
  end.

(** [enumerate(l)] *)
Fixpoint enumerate_from {A} (i : Z) (l : list A) : list (Z * A) :=
  match l with
  | [] => []
  | a :: l' => (i, a) :: enumerate_from (i + 1) l'
  end.
Definition enumerate {A} (l : list A) : list (Z * A) := enumerate_from 0 l.

(** [zip(a, b, c, d)] *)
Fixpoint zip4 {A B C D} (a : list A) (b : list B) (c : list C) (d : list D)
  : list (A * B * C * D) :=
  match a, b, c, d with
  | x :: a', y :: b', z :: c', w :: d' => (x, y, z, w) :: zip4 a' b' c' d'
  | _, _, _, _ => []
  end.

(** [float(z)], exact below 2^53. *)
Definition float_of_int (z : Z) : float :=
  if z <? 0
  then PrimFloat.opp (PrimFloat.of_uint63 (Uint63.of_Z (- z)))
  else PrimFloat.of_uint63 (Uint63.of_Z z).

(** Whether [float(z)] raises OverflowError. The greatest binary64 is
    2^1024 - 2^971; an int rounds to the nearest float, so from
    2^1024 - 2^970 on, in magnitude, it has no float. *)
Definition float_overflows (z : Z) : bool := 2 ^ 1024 - 2 ^ 970 <=? Z.abs z.

(** Whether numpy holds the Python int [z] as a generic object: it does when
    [z] fits neither int64 nor uint64. On such a value [np.isfinite] raises
    TypeError. *)
Definition np_object_int (z : Z) : bool := (z <? - 2 ^ 63) || (2 ^ 64 <=? z).

End Py.

(* ------------------------------------------------------------------ *)
(** ** The data model and the module-level constants *)

Record Sample : Type := mkSample {
  genotype : string;
  allele_1_count : Z;
  allele_2_count : Z
}.

Definition Dataset : Type := Py.dict Sample.

Definition GENOTYPES : list string := ["hom_ref"; "het"; "hom_alt"].

Definition GENOTYPE_SPACING : Z := 2.

Definition GENOTYPE_COLOURS : Py.dict string :=
  [("hom_ref", "blue"); ("het", "orange"); ("hom_alt", "red")].

Definition newline : string := String "010"%char EmptyString.

Definition GENOTYPE_LABELS : Py.dict string :=
  [("hom_ref", "Homozygous" ++ newline ++ "reference");
   ("het", "Heterozygous");
   ("hom_alt", "Homozygous" ++ newline ++ "alternate")].

Definition ALLELE_MARKERS : Py.dict string :=
  [("allele_1", "o"); ("allele_2", "x")].

Definition EXAMPLE_DATA : Dataset :=
  [("1", mkSample "hom_ref" 2 4);
   ("2", mkSample "hom_ref" 3 6);
   ("3", mkSample "het" 4 40);
   ("4", mkSample "het" 5 39);
   ("5", mkSample "hom_alt" 60 54);
   ("6", mkSample "hom_alt" 58 62)].

(** The data model's invariant: every genotype is one of [GENOTYPES]. *)
Definition valid_genotype (g : string) : bool := existsb (String.eqb g) GENOTYPES.

Definition valid_dataset (d : Dataset) : bool :=
  forallb (fun s => valid_genotype (genotype s)) (Py.values d).

(* ------------------------------------------------------------------ *)
(** ** The grouping step of create_plot (lines 84-87) *)

(** [[counts[sample] for sample in counts
       if counts[sample]["genotype"] == genotype]] *)
Definition bucket (counts : Dataset) (g : string) : Result (list Sample) :=
  Py.list_comp
    (fun sample => Py.getitem counts sample)
    (fun sample => s <- Py.getitem counts sample ;; ret (String.eqb (genotype s) g))
    (Py.keys counts).

Definition group_by_genotype (counts : Dataset) : Result (Py.dict (list Sample)) :=
  Py.dict_comp (fun g => g) (bucket counts) GENOTYPES.

(* ------------------------------------------------------------------ *)
(** ** pyplot's state, the dataset object and the disk *)

(** What [plt.scatter] returns and adds to the axes. *)
Record PathCollection : Type := mkPathCollection {
  pc_x : list float;
  pc_y : list Z;
  pc_color : string;
  pc_marker : string;
  pc_s : Z
}.

(** The calls the script makes on the current axes, with their arguments. *)
Inductive Artist : Type :=
| Scatter (pc : PathCollection)
| Plot (x : list float) (y : list Z) (color : string)
| Legend (handles : list PathCollection) (labels : list string)
         (loc : string) (fontsize : Z)
| Ylim (bottom top : Z)
| Text (x y : Z) (s color ha va : string) (fontsize : Z) (fontweight : string)
| Xlabel (s : string) (fontsize labelpad : Z)
| Ylabel (s : string) (fontsize : Z)
| Title (s : string) (fontsize : Z)
| SetXticks (ticks : list Z)
| SetXticklabels (labels : list string)
| SpineSetVisible (spine : string) (b : bool)
| SetFacecolor (color : string)
| Grid (color : string).

(** A figure: its size ([None] is matplotlib's default) and the calls made
    on its axes, oldest first. *)
Record Figure : Type := mkFigure {
  figsize : option (Z * Z);
  artists : list Artist
}.

Record SavedImage : Type := mkSavedImage {
  img_path : string;
  img_dpi : Z;
  img_figure : Figure
}.

(** The state of the process.
    - [counts]: the dict object that [allele_counts] in the main block and
      the parameter [counts] of create_plot both refer to;
    - [figures]: pyplot's figures, the current one first;
    - [written]: the image files written so far, oldest first;
    - [json_files]: the readable files with their decoded JSON content
      ([None]: the content is not JSON). *)
Record World : Type := mkWorld {
  counts : Dataset;
  figures : list Figure;
  written : list SavedImage;
  json_files : Py.dict (option Dataset)
}.

(** Computations that change the world and may raise. *)
Definition PyM (A : Type) : Type := World -> Result A * World.

#[global] Instance Monad_PyM : Monad PyM :=
  {| ret := fun _ a w => (Ok a, w);
     bind := fun _ _ c k w =>
               match c w with
               | (Ok a, w') => k a w'
               | (Raise e, w') => (Raise e, w')
               end |}.

Definition run {A} (c : PyM A) (w : World) : Result A * World := c w.

(** A pure computation inside [PyM]. *)
Definition lift {A} (r : Result A) : PyM A := fun w => (r, w).

(** [raise e]: the state stays as it is. *)
Definition raise {A} (e : PyExn) : PyM A := lift (Raise e).

(** [for a in l: body(a)] *)
Fixpoint for_each {A} (l : list A) (body : A -> PyM unit) : PyM unit :=
  match l with
  | [] => ret tt
  | a :: l' => body a ;; for_each l' body
  end.

(** [[f(a) for a in l]] with an effectful [f]. *)
Fixpoint map_py {A B} (f : A -> PyM B) (l : list A) : PyM (list B) :=
  match l with
  | [] => ret []
  | a :: l' => b <- f a ;; rest <- map_py f l' ;; ret (b :: rest)
  end.

(** Reading the variable [counts]. *)
Definition load_counts : PyM Dataset := fun w => (Ok (counts w), w).

(** Binding the dataset variable to a dict object. *)
Definition store_counts (d : Dataset) : PyM unit :=
  fun w => (Ok tt, mkWorld d (figures w) (written w) (json_files w)).

Module plt.

(** [plt.gcf()]: the current figure; pyplot makes one when there is none. *)
Definition gcf (w : World) : Figure :=
  match figures w with
  | f :: _ => f
  | [] => mkFigure None []
  end.

Definition set_gcf (f : Figure) (w : World) : World :=
  mkWorld (counts w) (f :: tl (figures w)) (written w) (json_files w).

(** A call on the current axes. *)
Definition draw (a : Artist) : PyM unit :=
  fun w => (Ok tt, set_gcf (mkFigure (figsize (gcf w)) (artists (gcf w) ++ [a])) w).

(** [plt.figure(figsize=..)]: a new figure, which becomes the current one. *)
Definition figure (size : Z * Z) : PyM unit :=
  fun w => (Ok tt, mkWorld (counts w) (mkFigure (Some size) [] :: figures w)
                           (written w) (json_files w)).

(** [plt.scatter(x, y, ..)]: matplotlib converts the y values to floats
    when it builds the collection, so an int with no float raises
    OverflowError and nothing is added to the axes. *)
Definition scatter (x : list float) (y : list Z) (color marker : string) (s : Z)
  : PyM PathCollection :=
  if existsb Py.float_overflows y
  then raise OverflowError
  else let pc := mkPathCollection x y color marker s in
       draw (Scatter pc) ;; ret pc.

(** [plt.plot(x, y, ..)]: the same conversion of the y values. *)
Definition plot (x : list float) (y : list Z) (color : string) : PyM unit :=
  if existsb Py.float_overflows y
  then raise OverflowError
  else draw (Plot x y color).

Definition legend (handles : list PathCollection) (labels : list string)
           (loc : string) (fontsize : Z) : PyM unit :=
  draw (Legend handles labels loc fontsize).

(** [plt.ylim(bottom, top)]: matplotlib checks each limit with
    [np.isfinite], which raises TypeError on an int that numpy holds as an
    object; no limit is set then. *)
Definition ylim (bottom top : Z) : PyM unit :=
  if Py.np_object_int bottom || Py.np_object_int top
  then raise TypeError
  else draw (Ylim bottom top).

Definition text (x y : Z) (s color ha va : string) (fontsize : Z)
           (fontweight : string) : PyM unit :=
  draw (Text x y s color ha va fontsize fontweight).

Definition xlabel (s : string) (fontsize labelpad : Z) : PyM unit :=
  draw (Xlabel s fontsize labelpad).
Definition ylabel (s : string) (fontsize : Z) : PyM unit := draw (Ylabel s fontsize).
Definition title (s : string) (fontsize : Z) : PyM unit := draw (Title s fontsize).
Definition set_xticks (ticks : list Z) : PyM unit := draw (SetXticks ticks).
Definition set_xticklabels (labels : list string) : PyM unit :=
  draw (SetXticklabels labels).
Definition spine_set_visible (spine : string) (b : bool) : PyM unit :=
  draw (SpineSetVisible spine b).
Definition set_facecolor (color : string) : PyM unit := draw (SetFacecolor color).
Definition grid (color : string) : PyM unit := draw (Grid color).

(** [plt.savefig(path, dpi=..)]: writes the current figure. *)
Definition savefig (path : string) (dpi : Z) : PyM unit :=
  fun w => (Ok tt, mkWorld (counts w) (figures (set_gcf (gcf w) w))
                           (written w ++ [mkSavedImage path dpi (gcf w)])
                           (json_files w)).

End plt.

(* ------------------------------------------------------------------ *)
(** ** create_plot *)

Definition MARKER_SIZE : Z := 100.

(** Lines 91-107: the body of the loop over [enumerate(GENOTYPES)]. *)
Definition plot_genotype (data_by_genotype : Py.dict (list Sample))
           (ig : Z * string) : PyM unit :=
  let '(i, genotype) := ig in
  data <- lift (Py.getitem data_by_genotype genotype) ;;
  let x_1 := repeat (PrimFloat.sub (Py.float_of_int (i * GENOTYPE_SPACING)) 0.5%float)
                    (length data) in
  let x_2 := repeat (PrimFloat.add (Py.float_of_int (i * GENOTYPE_SPACING)) 0.5%float)
                    (length data) in
  let y_1 := map allele_1_count data in
  let y_2 := map allele_2_count data in
  colour <- lift (Py.getitem GENOTYPE_COLOURS genotype) ;;
  marker <- lift (Py.getitem ALLELE_MARKERS "allele_1") ;;
  plt.scatter x_1 y_1 colour marker MARKER_SIZE ;;
  colour <- lift (Py.getitem GENOTYPE_COLOURS genotype) ;;
  marker <- lift (Py.getitem ALLELE_MARKERS "allele_2") ;;
  plt.scatter x_2 y_2 colour marker MARKER_SIZE ;;
  for_each (Py.zip4 x_1 x_2 y_1 y_2)
    (fun '(x1, x2, y1, y2) =>
       colour <- lift (Py.getitem GENOTYPE_COLOURS genotype) ;;
       plt.plot [x1; x2] [y1; y2] colour).

(** Line 119: the outer max is called on the unpacked one-element list
    whose element is [max([a1, a2] for sample in counts.values())].
    The inner max ranges over the two-element lists themselves, so it
    compares them as lists; the unpacking then passes that one list to the
    outer max, which ranges over its two counts. *)
Definition max_value_of (counts : Dataset) : Result Z :=
  best <- Py.max Py.list_gt
            (map (fun sample => [allele_1_count sample; allele_2_count sample])
                 (Py.values counts)) ;;
  Py.max Z.gtb best.

(** Lines 123-132: the body of the loop that writes the genotype labels. *)
Definition label_genotype (ig : Z * string) : PyM unit :=
  let '(i, genotype) := ig in
  label <- lift (Py.getitem GENOTYPE_LABELS genotype) ;;
  colour <- lift (Py.getitem GENOTYPE_COLOURS genotype) ;;
  plt.text (i * GENOTYPE_SPACING) (-1) label colour "center" "top" 10 "bold".

Definition create_plot : PyM unit :=
  plt.figure (10, 10) ;;
  counts <- load_counts ;;
  data_by_genotype <- lift (group_by_genotype counts) ;;
  for_each (Py.enumerate GENOTYPES) (plot_genotype data_by_genotype) ;;
  handles <- map_py (fun marker => plt.scatter [] [] "black" marker MARKER_SIZE)
                    (Py.values ALLELE_MARKERS) ;;
  plt.legend handles ["Allele 1"; "Allele 2"] "upper left" 14 ;;
  counts <- load_counts ;;
  max_value <- lift (max_value_of counts) ;;
  plt.ylim 0 (max_value + 10) ;;
  for_each (Py.enumerate GENOTYPES) label_genotype ;;
  plt.xlabel "Genotype" 14 30 ;;
  plt.ylabel "Allele Count" 14 ;;
  plt.title "Allele Counts by Genotype" 20 ;;
  plt.set_xticks [] ;;
  plt.set_xticklabels [] ;;
  plt.spine_set_visible "top" false ;;
  plt.spine_set_visible "right" false ;;
  plt.set_facecolor "#EAEAF2" ;;
  plt.grid "white".

(* ------------------------------------------------------------------ *)
(** ** The command line and the main block *)

(** What parse_args returns: [--input-json] (a str, None when absent) and
    [--save-plot] (store_true: True exactly when the flag was given). *)
Record Namespace : Type := mkNamespace {
  input_json : option string;
  save_plot : bool
}.

Definition read_data (path_to_json : option string) : PyM Dataset :=
  match path_to_json with
  | None => ret EXAMPLE_DATA
  | Some path =>
      fun w =>
        match Py.getitem (json_files w) path with
        | Ok (Some d) => (Ok d, w)
        | Ok None => (Raise (JSONDecodeError path), w)
        | Raise _ => (Raise (FileNotFoundError path), w)
        end
  end.

Definition main (args : Namespace) : PyM unit :=
  allele_counts <- read_data (input_json args) ;;
  store_counts allele_counts ;;
  create_plot ;;
  if save_plot args
  then plt.savefig "allele_count_graph.png" 300
  else ret tt.

(* ------------------------------------------------------------------ *)
(** ** What is observed of a figure *)

(** The straight segments drawn by [plt.plot]. *)
Definition segments (l : list Artist) : list (list float * list Z * string) :=
  flat_map (fun a => match a with Plot x y c => [(x, y, c)] | _ => [] end) l.

(** The points drawn by [plt.scatter] with a given marker. *)
Definition points (marker : string) (l : list Artist) : list (float * Z) :=
  flat_map (fun a => match a with
                     | Scatter pc => if String.eqb (pc_marker pc) marker
                                     then combine (pc_x pc) (pc_y pc) else []
                     | _ => []
                     end) l.

(** The two end points of a segment. *)
Definition ends (seg : list float * list Z * string) : list (float * Z) :=
  let '(x, y, _) := seg in combine x y.

(** The y-axis limits set by [plt.ylim], as (lower, upper). *)
Definition ylims (l : list Artist) : list (Z * Z) :=
  flat_map (fun a => match a with Ylim b t => [(b, t)] | _ => [] end) l.

(** The samples of one genotype, as a sub-dict in the input's order. *)
Definition samples_of (g : string) (d : Dataset) : Dataset :=
  filter (fun ks => String.eqb (genotype (snd ks)) g) d.

(** The greatest count over all samples and both allele slots (0 for the
    empty dataset, where no count exists). *)
Definition global_max (d : Dataset) : Z :=
  match Py.values d with
  | [] => 0
  | s :: l => fold_left (fun m s' => Z.max m (Z.max (allele_1_count s') (allele_2_count s')))
                        l (Z.max (allele_1_count s) (allele_2_count s))
  end.

(* ------------------------------------------------------------------ *)
(** ** The figure that create_plot draws *)

(** The x positions of the two allele slots of category [i] (lines 95-96). *)
Definition x_1 (i : Z) : float :=
  PrimFloat.sub (Py.float_of_int (i * GENOTYPE_SPACING)) 0.5%float.
Definition x_2 (i : Z) : float :=
  PrimFloat.add (Py.float_of_int (i * GENOTYPE_SPACING)) 0.5%float.

(** The segments that join the two points of each sample of a bucket. *)
Definition join_artists (i : Z) (colour : string) (data : list Sample)
  : list Artist :=
  map (fun s => Plot [x_1 i; x_2 i] [allele_1_count s; allele_2_count s] colour) data.

(** What one pass of the plotting loop draws for category [i]. *)
Definition genotype_artists (i : Z) (colour : string) (data : list Sample)
  : list Artist :=
  [Scatter (mkPathCollection (repeat (x_1 i) (length data))
                             (map allele_1_count data) colour "o" MARKER_SIZE);
   Scatter (mkPathCollection (repeat (x_2 i) (length data))
                             (map allele_2_count data) colour "x" MARKER_SIZE)]
  ++ join_artists i colour data.

Definition plot_artists (b1 b2 b3 : list Sample) : list Artist :=
  genotype_artists 0 "blue" b1 ++ genotype_artists 1 "orange" b2
  ++ genotype_artists 2 "red" b3.

Definition legend_artists : list Artist :=
  let h1 := mkPathCollection [] [] "black" "o" MARKER_SIZE in
  let h2 := mkPathCollection [] [] "black" "x" MARKER_SIZE in
  [Scatter h1; Scatter h2;
   Legend [h1; h2] ["Allele 1"; "Allele 2"] "upper left" 14].

(** Everything drawn after the y-axis limits. *)
Definition decorations : list Artist :=
  [Text 0 (-1) ("Homozygous" ++ newline ++ "reference") "blue" "center" "top" 10 "bold";
   Text 2 (-1) "Heterozygous" "orange" "center" "top" 10 "bold";
   Text 4 (-1) ("Homozygous" ++ newline ++ "alternate") "red" "center" "top" 10 "bold";
   Xlabel "Genotype" 14 30; Ylabel "Allele Count" 14;
   Title "Allele Counts by Genotype" 20;
   SetXticks []; SetXticklabels [];
   SpineSetVisible "top" false; SpineSetVisible "right" false;
   SetFacecolor "#EAEAF2"; Grid "white"].

(** The world once create_plot has opened its figure and drawn [l] on it. *)
Definition drawn (w : World) (l : list Artist) : World :=
  mkWorld (counts w) (mkFigure (Some (10, 10)) l :: figures w)
          (written w) (json_files w).

(** A computation that changes neither the dataset object, nor the files
    written, nor the readable files; it may draw. *)
Definition only_draws {A} (c : PyM A) : Prop :=
  forall w, counts (snd (run c w)) = counts w /\
            written (snd (run c w)) = written w /\
            json_files (snd (run c w)) = json_files w.

(** The world when the script starts on the readable files [files]: no
    figure, nothing written, the dataset variable not yet bound (held as
    the empty dict until the main block binds it). *)
Definition start_world (files : Py.dict (option Dataset)) : World :=
  mkWorld [] [] [] files.

(** The world when create_plot is called on the dataset [d] right after the
    script started. *)
Definition world_of (d : Dataset) : World := mkWorld d [] [] [].

(** The x positions 2*i - 0.5 and 2*i + 0.5 of the two allele slots, for
    the three indices of [GENOTYPES]. *)
Definition slot_x (i : nat) : float * float :=
  match i with
  | 0%nat => ((-0.5)%float, 0.5%float)
  | 1%nat => (1.5%float, 2.5%float)
  | _ => (3.5%float, 4.5%float)
  end.

(** The records whose genotype is one of [GENOTYPES], in the input's order. *)
Definition recognised (d : Dataset) : list Sample :=
  filter (fun s => valid_genotype (genotype s)) (Py.values d).

(** Every count of the records [data] has a float. *)
Definition floats_ok (data : list Sample) : bool :=
  forallb (fun s => negb (Py.float_overflows (allele_1_count s))
                    && negb (Py.float_overflows (allele_2_count s))) data.

(** Every count of a sample with a recognised genotype has a float: the
    counts that create_plot passes to plt.scatter and plt.plot. *)
Definition drawable (d : Dataset) : bool := floats_ok (recognised d).

(** A count [c] for which [c + 10] fits int64 or uint64. *)
Definition count_in_range (c : Z) : bool :=
  (- 2 ^ 63 <=? c + 10) && (c + 10 <? 2 ^ 64).

(** Every count of the dataset is in that range. *)
Definition plottable (d : Dataset) : bool :=
  forallb (fun s => count_in_range (allele_1_count s)
                    && count_in_range (allele_2_count s)) (Py.values d).

(** What one pass of the plotting loop has drawn when it ends: nothing when
    the first scatter call raises, the first collection when the second one
    raises, everything otherwise. *)
Definition genotype_drawn (i : Z) (colour : string) (data : list Sample)
  : list Artist :=
  if existsb Py.float_overflows (map allele_1_count data) then []
  else if existsb Py.float_overflows (map allele_2_count data)
       then [Scatter (mkPathCollection (repeat (x_1 i) (length data))
                                       (map allele_1_count data) colour "o"
                                       MARKER_SIZE)]
       else genotype_artists i colour data.

(** What the plotting loop has drawn when it ends: it stops at the first
    bucket with a count that has no float. *)
Definition plot_drawn (b1 b2 b3 : list Sample) : list Artist :=
  genotype_drawn 0 "blue" b1
  ++ (if floats_ok b1
      then genotype_drawn 1 "orange" b2
           ++ (if floats_ok b2 then genotype_drawn 2 "red" b3 else [])
      else []).

(** A valid dataset with one sample, whose allele-1 count has no float. *)
Definition huge_count_data : Dataset := [("3", mkSample "het" (2 ^ 1024) 40)].

(** The data model's invariant on counts: none is negative. *)
Definition nonneg_counts (d : Dataset) : bool :=
  forallb (fun s => (0 <=? allele_1_count s) && (0 <=? allele_2_count s))
          (Py.values d).

(** The world in which the main block calls create_plot, once it has bound
    the dataset [d] it read. *)
Definition bound_world (d : Dataset) (w : World) : World :=
  mkWorld d (figures w) (written w) (json_files w).

(** The shape matplotlib needs of the data arguments: a scatter call gets
    as many x values as y values, a plot call two of each. *)
Definition well_shaped (a : Artist) : Prop :=
  match a with
  | Scatter pc => length (pc_x pc) = length (pc_y pc)
  | Plot x y _ => length x = 2%nat /\ length y = 2%nat
  | _ => True
  end.

(* ------------------------------------------------------------------ *)
(** ** Running computations *)

Lemma run_bind {A B} (c : PyM A) (k : A -> PyM B) (w : World) :
  run (bind c k) w =
  match run c w with
  | (Ok a, w') => run (k a) w'
  | (Raise e, w') => (Raise e, w')
  end.
Proof. reflexivity. Qed.

Lemma run_lift {A} (r : Result A) (w : World) : run (lift r) w = (r, w).
Proof. reflexivity. Qed.

(* ------------------------------------------------------------------ *)
(** ** The frame: what a computation leaves alone *)

Lemma only_draws_ret {A} (a : A) : only_draws (ret a).
Proof. intro w. repeat split. Qed.

Lemma only_draws_lift {A} (r : Result A) : only_draws (lift r).
Proof. intro w. repeat split. Qed.

Lemma only_draws_load : only_draws load_counts.
Proof. intro w. repeat split. Qed.

Lemma only_draws_draw (a : Artist) : only_draws (plt.draw a).
Proof. intro w. repeat split. Qed.

Lemma only_draws_figure (size : Z * Z) : only_draws (plt.figure size).
Proof. intro w. repeat split. Qed.

Lemma only_draws_bind {A B} (c : PyM A) (k : A -> PyM B) :
  only_draws c -> (forall a, only_draws (k a)) -> only_draws (bind c k).
Proof.
  intros Hc Hk w. rewrite run_bind.
  destruct (Hc w) as (H1 & H2 & H3).
  destruct (run c w) as [[a | e] w']; cbn [snd] in *.
  - destruct (Hk a w') as (K1 & K2 & K3). repeat split; congruence.
  - repeat split; assumption.
Qed.

Lemma only_draws_for_each {A} (body : A -> PyM unit) (l : list A) :
  (forall a, only_draws (body a)) -> only_draws (for_each l body).
Proof.
  intros Hb. induction l as [| a l IH]; cbn [for_each].
  - apply only_draws_ret.
  - apply only_draws_bind; [apply Hb | intros _; exact IH].
Qed.

Lemma only_draws_map_py {A B} (f : A -> PyM B) (l : list A) :
  (forall a, only_draws (f a)) -> only_draws (map_py f l).
Proof.
  intros Hf. induction l as [| a l IH]; cbn [map_py].
  - apply only_draws_ret.
  - apply only_draws_bind; [apply Hf | intros b].
    apply only_draws_bind; [exact IH | intros rest; apply only_draws_ret].
Qed.

Create HintDb frame.
#[local] Hint Resolve only_draws_ret only_draws_lift only_draws_load
  only_draws_draw only_draws_figure : frame.

Ltac frame :=
  repeat first
    [ apply only_draws_bind; [ | intro ]
    | apply only_draws_for_each; intro
    | apply only_draws_map_py; intro
    | match goal with |- only_draws (let '(_, _) := ?p in _) => destruct p end
    | solve [ auto with frame ] ].

Lemma only_draws_raise {A} (e : PyExn) : only_draws (@raise A e).
Proof. intro w. repeat split. Qed.

#[local] Hint Resolve only_draws_raise : frame.

Lemma only_draws_scatter x y colour marker s :
  only_draws (plt.scatter x y colour marker s).
Proof. unfold plt.scatter. destruct (existsb Py.float_overflows y); frame. Qed.

Lemma only_draws_plot x y colour : only_draws (plt.plot x y colour).
Proof. unfold plt.plot. destruct (existsb Py.float_overflows y); frame. Qed.

Lemma only_draws_ylim bottom top : only_draws (plt.ylim bottom top).
Proof.
  unfold plt.ylim. destruct (Py.np_object_int bottom || Py.np_object_int top); frame.
Qed.

#[local] Hint Resolve only_draws_scatter only_draws_plot only_draws_ylim : frame.

Lemma only_draws_plot_genotype buckets ig : only_draws (plot_genotype buckets ig).
Proof.
  destruct ig as [i g]. unfold plot_genotype. frame.
Qed.

Lemma only_draws_label_genotype ig : only_draws (label_genotype ig).
Proof. destruct ig as [i g]. unfold label_genotype, plt.text. frame. Qed.

#[local] Hint Resolve only_draws_plot_genotype only_draws_label_genotype : frame.

Lemma only_draws_create_plot : only_draws create_plot.
Proof.
  unfold create_plot, plt.legend, plt.xlabel, plt.ylabel, plt.title,
    plt.set_xticks, plt.set_xticklabels, plt.spine_set_visible,
    plt.set_facecolor, plt.grid.
  frame.
Qed.

(* ------------------------------------------------------------------ *)
(** ** Lookups and comprehensions *)

Section Lookup.

Context {V : Type}.
Implicit Types (d : Py.dict V) (k : string) (v : V).

Lemma existsb_eqb_In (k : string) (l : list string) :
  existsb (String.eqb k) l = true <-> In k l.
Proof.
  rewrite existsb_exists. split.
  - intros (x & Hx & E). apply String.eqb_eq in E. now subst.
  - intros H. exists k. split; [assumption | apply String.eqb_refl].
Qed.

Lemma nodupb_NoDup (l : list string) : Py.nodupb l = true -> NoDup l.
Proof.
  induction l as [| k l IH]; cbn [Py.nodupb]; intros H.
  - constructor.
  - apply andb_true_iff in H. destruct H as [Hk Hl].
    constructor; [| now apply IH].
    intros Hin. apply existsb_eqb_In in Hin. rewrite Hin in Hk. discriminate.
Qed.

Lemma in_keys d k v : In (k, v) d -> In k (Py.keys d).
Proof. intros H. unfold Py.keys. change k with (fst (k, v)). now apply in_map. Qed.

(** In a dict, the value found under a key is the one stored with it. *)
Lemma getitem_In d k v :
  Py.dict_wf d = true -> In (k, v) d -> Py.getitem d k = Ok v.
Proof.
  unfold Py.dict_wf. induction d as [| [k' v'] d IH]; cbn; intros Hwf Hin.
  - contradiction.
  - apply andb_true_iff in Hwf. destruct Hwf as [Hk Hd].
    destruct Hin as [E | Hin].
    + inversion E; subst. now rewrite String.eqb_refl.
    + destruct (String.eqb_spec k' k) as [-> | _].
      * apply in_keys, existsb_eqb_In in Hin.
        unfold Py.keys in Hin. rewrite Hin in Hk. discriminate.
      * now apply IH.
Qed.

(** A key of the dict is always found. *)
Lemma getitem_total d k : In k (Py.keys d) -> exists v, Py.getitem d k = Ok v.
Proof.
  induction d as [| [k' v'] d IH]; cbn; intros Hin.
  - contradiction.
  - destruct (String.eqb_spec k' k) as [-> | Hne].
    + now exists v'.
    + destruct Hin as [E | Hin]; [contradiction | now apply IH].
Qed.

End Lookup.

Section Comprehension.

Context {A B : Type} (f : A -> Result B) (cond : A -> Result bool).

(** A comprehension whose element and condition never raise returns. *)
Lemma list_comp_total (l : list A) :
  (forall a, In a l -> exists b, f a = Ok b) ->
  (forall a, In a l -> exists c, cond a = Ok c) ->
  exists r, Py.list_comp f cond l = Ok r.
Proof.
  induction l as [| a l IH]; intros Hf Hc; cbn [Py.list_comp].
  - now exists [].
  - destruct (Hc a (or_introl eq_refl)) as [c Ec].
    destruct (Hf a (or_introl eq_refl)) as [b Eb].
    destruct IH as [r Er].
    + intros a' H. apply Hf. now right.
    + intros a' H. apply Hc. now right.
    + cbn. rewrite Ec, Eb, Er. destruct c; eauto.
Qed.

(** Every element of the result comes from an item that passed the
    condition. *)
Lemma list_comp_In (l : list A) (r : list B) (b : B) :
  Py.list_comp f cond l = Ok r -> In b r ->
  exists a, In a l /\ f a = Ok b /\ cond a = Ok true.
Proof.
  revert r. induction l as [| a l IH]; cbn; intros r H Hin.
  - inversion H; subst. contradiction.
  - destruct (cond a) as [[|] | e] eqn:Ec; try discriminate.
    + destruct (f a) as [b' | e] eqn:Eb; try discriminate.
      destruct (Py.list_comp f cond l) as [rest | e] eqn:Er; try discriminate.
      inversion H; subst. destruct Hin as [-> | Hin].
      * exists a. auto.
      * destruct (IH rest eq_refl Hin) as (a' & Ha & Hfa & Hca).
        exists a'. auto.
    + destruct (IH r H Hin) as (a' & Ha & Hfa & Hca). exists a'. auto.
Qed.

End Comprehension.

(* ------------------------------------------------------------------ *)
(** ** The grouping step *)

Lemma values_samples_of (g : string) (d : Dataset) :
  Py.values (samples_of g d)
  = filter (fun s => String.eqb (genotype s) g) (Py.values d).
Proof.
  unfold samples_of, Py.values.
  induction d as [| [k s] d IH]; cbn [filter map snd]; [reflexivity |].
  destruct (String.eqb (genotype s) g); cbn [map snd]; now rewrite IH.
Qed.

(** Over any part [l] of a dict [d] whose lookups return the stored record,
    the comprehension of lines 85 is the filter of [l]. *)
Lemma bucket_comp (d l : Dataset) (g : string) :
  (forall k s, In (k, s) l -> Py.getitem d k = Ok s) ->
  Py.list_comp
    (fun sample => Py.getitem d sample)
    (fun sample => s <- Py.getitem d sample ;; ret (String.eqb (genotype s) g))
    (Py.keys l)
  = Ok (Py.values (samples_of g l)).
Proof.
  set (cond := fun sample => bind _ _).
  induction l as [| [k s] l IH]; intros H; [reflexivity |].
  assert (Hc : cond k = Ok (String.eqb (genotype s) g)).
  { unfold cond. now rewrite (H k s (or_introl eq_refl)). }
  cbn [Py.keys map fst Py.list_comp]. rewrite Hc.
  cbn [bind ret Monad_Result]. rewrite (H k s (or_introl eq_refl)).
  fold (Py.keys l). rewrite IH by (intros k' s' Hin; apply H; now right).
  cbn [samples_of filter snd].
  destruct (String.eqb (genotype s) g); reflexivity.
Qed.

Lemma bucket_wf (counts : Dataset) (g : string) :
  Py.dict_wf counts = true ->
  bucket counts g = Ok (Py.values (samples_of g counts)).
Proof.
  intros Hwf. unfold bucket. apply bucket_comp.
  intros k s Hin. now apply getitem_In.
Qed.

Lemma bucket_total (counts : Dataset) (g : string) :
  exists b, bucket counts g = Ok b.
Proof.
  unfold bucket. apply list_comp_total.
  - intros k Hk. now apply getitem_total.
  - intros k Hk. destruct (getitem_total counts k Hk) as [s Es].
    rewrite Es. cbn. eauto.
Qed.

(** Whatever a bucket holds has the bucket's genotype and is a record of
    the dataset. *)
Lemma bucket_In (counts : Dataset) (g : string) (b : list Sample) (s : Sample) :
  bucket counts g = Ok b -> In s b ->
  genotype s = g /\ In s (Py.values counts).
Proof.
  intros Hb Hin. unfold bucket in Hb.
  destruct (list_comp_In _ _ _ _ _ Hb Hin) as (k & Hk & Hf & Hc).
  rewrite Hf in Hc. cbn in Hc. inversion Hc as [E].
  split; [now apply String.eqb_eq |].
  clear - Hf. induction counts as [| [k' s'] d IH]; cbn in *; [discriminate |].
  destruct (String.eqb k' k); [inversion Hf; now left | right; now apply IH].
Qed.

(** The grouping always returns, with one bucket per category, in the
    order of [GENOTYPES]. *)
Lemma group_total (counts : Dataset) :
  exists b1 b2 b3,
    group_by_genotype counts = Ok [("hom_ref", b1); ("het", b2); ("hom_alt", b3)] /\
    bucket counts "hom_ref" = Ok b1 /\
    bucket counts "het" = Ok b2 /\
    bucket counts "hom_alt" = Ok b3.
Proof.
  destruct (bucket_total counts "hom_ref") as [b1 E1].
  destruct (bucket_total counts "het") as [b2 E2].
  destruct (bucket_total counts "hom_alt") as [b3 E3].
  exists b1, b2, b3. unfold group_by_genotype, GENOTYPES. cbn.
  rewrite E1, E2, E3. auto.
Qed.

Lemma group_wf (counts : Dataset) :
  Py.dict_wf counts = true ->
  group_by_genotype counts
  = Ok [("hom_ref", Py.values (samples_of "hom_ref" counts));
        ("het", Py.values (samples_of "het" counts));
        ("hom_alt", Py.values (samples_of "hom_alt" counts))].
Proof.
  intros Hwf. unfold group_by_genotype, GENOTYPES. cbn.
  now rewrite !bucket_wf.
Qed.

(* ------------------------------------------------------------------ *)
(** ** Running create_plot *)

Local Open Scope list_scope.

Lemma run_figure (w : World) : run (plt.figure (10, 10)) w = (Ok tt, drawn w []).
Proof. reflexivity. Qed.

Lemma run_draw (a : Artist) (w : World) (l : list Artist) :
  run (plt.draw a) (drawn w l) = (Ok tt, drawn w (l ++ [a])).
Proof. reflexivity. Qed.

Lemma run_raise {A} (e : PyExn) (w : World) : run (@raise A e) w = (Raise e, w).
Proof. reflexivity. Qed.

Lemma run_scatter x y colour marker s (w : World) (l : list Artist) :
  existsb Py.float_overflows y = false ->
  run (plt.scatter x y colour marker s) (drawn w l)
  = (Ok (mkPathCollection x y colour marker s),
     drawn w (l ++ [Scatter (mkPathCollection x y colour marker s)])).
Proof. intros H. unfold plt.scatter. now rewrite H. Qed.

Lemma run_scatter_raise x y colour marker s (w : World) :
  existsb Py.float_overflows y = true ->
  run (plt.scatter x y colour marker s) w = (Raise OverflowError, w).
Proof. intros H. unfold plt.scatter. now rewrite H. Qed.

Lemma run_plot x y colour (w : World) (l : list Artist) :
  existsb Py.float_overflows y = false ->
  run (plt.plot x y colour) (drawn w l) = (Ok tt, drawn w (l ++ [Plot x y colour])).
Proof. intros H. unfold plt.plot. now rewrite H. Qed.

Lemma zip4_repeat {A B C D} (a : A) (b : B) (f : Sample -> C) (h : Sample -> D)
      (data : list Sample) :
  Py.zip4 (repeat a (length data)) (repeat b (length data)) (map f data) (map h data)
  = map (fun s => (a, b, f s, h s)) data.
Proof.
  induction data as [| s data IH]; cbn; [reflexivity | now rewrite IH].
Qed.

(** The counts of a bucket all have floats exactly when neither list of
    counts, as passed to plt.scatter, holds one that has none. *)
Lemma floats_ok_scatter (data : list Sample) :
  floats_ok data
  = negb (existsb Py.float_overflows (map allele_1_count data))
    && negb (existsb Py.float_overflows (map allele_2_count data)).
Proof.
  induction data as [| s data IH]; cbn [floats_ok forallb map existsb];
    [reflexivity |].
  fold (floats_ok data). rewrite IH.
  destruct (Py.float_overflows (allele_1_count s)),
    (Py.float_overflows (allele_2_count s)),
    (existsb Py.float_overflows (map allele_1_count data)),
    (existsb Py.float_overflows (map allele_2_count data)); reflexivity.
Qed.

(** The loop of lines 106-107 draws one segment per sample of the bucket
    (here after the colour lookup has returned [colour]); the counts it
    passes have gone through plt.scatter before. *)
Lemma run_segments (i : Z) (colour : string) (data : list Sample) :
  floats_ok data = true ->
  forall (w : World) (l : list Artist),
  run (for_each (map (fun s => (x_1 i, x_2 i, allele_1_count s, allele_2_count s)) data)
         (fun '(x1, x2, y1, y2) =>
            colour <- lift (Ok colour) ;;
            plt.plot [x1; x2] [y1; y2] colour))
      (drawn w l)
  = (Ok tt, drawn w (l ++ join_artists i colour data)).
Proof.
  unfold join_artists.
  induction data as [| s data IH]; intros Hok w l; cbn [map for_each].
  - now rewrite app_nil_r.
  - cbn [floats_ok forallb] in Hok. apply andb_true_iff in Hok.
    destruct Hok as [Hs Hdata]. apply andb_true_iff in Hs. destruct Hs as [H1 H2].
    apply negb_true_iff in H1, H2.
    rewrite run_bind, run_bind, run_lift.
    rewrite run_plot by (cbn [existsb]; now rewrite H1, H2).
    rewrite (IH Hdata), <- app_assoc. reflexivity.
Qed.

(** One pass of the plotting loop (lines 91-107): it returns when every
    count of the bucket has a float, and raises OverflowError in the first
    or in the second scatter call otherwise. *)
Lemma run_plot_genotype buckets (i : Z) (g colour : string) (data : list Sample)
      (w : World) (l : list Artist) :
  Py.getitem buckets g = Ok data ->
  Py.getitem GENOTYPE_COLOURS g = Ok colour ->
  run (plot_genotype buckets (i, g)) (drawn w l)
  = (if floats_ok data then Ok tt else Raise OverflowError,
     drawn w (l ++ genotype_drawn i colour data)).
Proof.
  intros Hd Hc. unfold plot_genotype, genotype_drawn.
  rewrite floats_ok_scatter.
  rewrite Hc, run_bind, run_lift, Hd.
  rewrite run_bind, run_lift.
  rewrite run_bind, run_lift. cbn [Py.getitem ALLELE_MARKERS].
  change (String.eqb "allele_1" "allele_1") with true. cbv iota.
  rewrite run_bind.
  destruct (existsb Py.float_overflows (map allele_1_count data)) eqn:E1.
  { rewrite (run_scatter_raise _ _ _ _ _ _ E1), app_nil_r. reflexivity. }
  rewrite (run_scatter _ _ _ _ _ _ _ E1).
  rewrite run_bind, run_lift.
  rewrite run_bind, run_lift.
  change (String.eqb "allele_1" "allele_2") with false.
  change (String.eqb "allele_2" "allele_2") with true. cbv iota.
  rewrite run_bind.
  destruct (existsb Py.float_overflows (map allele_2_count data)) eqn:E2.
  { rewrite (run_scatter_raise _ _ _ _ _ _ E2). reflexivity. }
  rewrite (run_scatter _ _ _ _ _ _ _ E2).
  rewrite zip4_repeat.
  fold (x_1 i). fold (x_2 i).
  rewrite (run_segments i colour data)
    by (rewrite floats_ok_scatter, E1, E2; reflexivity).
  unfold genotype_artists. rewrite <- !app_assoc. reflexivity.
Qed.

Lemma genotype_drawn_ok (i : Z) (colour : string) (data : list Sample) :
  floats_ok data = true -> genotype_drawn i colour data = genotype_artists i colour data.
Proof.
  rewrite floats_ok_scatter. unfold genotype_drawn.
  destruct (existsb Py.float_overflows (map allele_1_count data)); [discriminate |].
  destruct (existsb Py.float_overflows (map allele_2_count data)); [discriminate |].
  reflexivity.
Qed.

(** What a pass has drawn is a beginning of what it draws when it returns. *)
Lemma genotype_drawn_prefix (i : Z) (colour : string) (data : list Sample) :
  exists rest, genotype_artists i colour data = genotype_drawn i colour data ++ rest.
Proof.
  unfold genotype_drawn, genotype_artists.
  destruct (existsb Py.float_overflows (map allele_1_count data));
    [eexists; reflexivity |].
  destruct (existsb Py.float_overflows (map allele_2_count data)).
  - eexists. cbn [app]. reflexivity.
  - exists []. now rewrite app_nil_r.
Qed.

Lemma plot_drawn_ok (b1 b2 b3 : list Sample) :
  floats_ok b1 = true -> floats_ok b2 = true -> floats_ok b3 = true ->
  plot_drawn b1 b2 b3 = plot_artists b1 b2 b3.
Proof.
  intros H1 H2 H3. unfold plot_drawn, plot_artists.
  now rewrite H1, H2, !genotype_drawn_ok.
Qed.

(** What the plotting loop has drawn is a beginning of what it draws when
    it returns. *)
Lemma plot_drawn_prefix (b1 b2 b3 : list Sample) :
  exists rest, plot_artists b1 b2 b3 = plot_drawn b1 b2 b3 ++ rest.
Proof.
  unfold plot_drawn, plot_artists.
  destruct (floats_ok b1) eqn:H1.
  - rewrite (genotype_drawn_ok _ _ _ H1). destruct (floats_ok b2) eqn:H2.
    + rewrite (genotype_drawn_ok _ _ _ H2).
      destruct (genotype_drawn_prefix 2 "red" b3) as [rest ->].
      exists rest. now rewrite <- !app_assoc.
    + destruct (genotype_drawn_prefix 1 "orange" b2) as [rest ->].
      exists (rest ++ genotype_artists 2 "red" b3). now rewrite <- !app_assoc.
  - destruct (genotype_drawn_prefix 0 "blue" b1) as [rest ->].
    exists (rest ++ genotype_artists 1 "orange" b2 ++ genotype_artists 2 "red" b3).
    now rewrite <- !app_assoc.
Qed.

Lemma run_label_genotype (i : Z) (g label colour : string) (w : World)
      (l : list Artist) :
  Py.getitem GENOTYPE_LABELS g = Ok label ->
  Py.getitem GENOTYPE_COLOURS g = Ok colour ->
  run (label_genotype (i, g)) (drawn w l)
  = (Ok tt, drawn w (l ++ [Text (i * GENOTYPE_SPACING) (-1) label colour
                                "center" "top" 10 "bold"])).
Proof.
  intros Hl Hc. unfold label_genotype, plt.text.
  rewrite run_bind, run_lift, Hl, run_bind, run_lift, Hc. apply run_draw.
Qed.

Ltac run_step :=
  first
    [ rewrite run_bind
    | rewrite run_scatter by reflexivity
    | rewrite run_draw
    | rewrite run_lift
    | progress change (run (ret ?a) ?w0) with (Ok a, w0)
    | progress change (run load_counts ?w0) with (Ok (counts w0), w0)
    | progress cbv iota beta ].

(** create_plot, run on any world whose grouping gave the buckets
    [b1], [b2], [b3]. It opens a figure and runs the plotting loop, which
    raises OverflowError at the first count without a float. Otherwise it
    draws the legend, and then stops at the max computation (ValueError on
    the empty dataset), or at plt.ylim (TypeError when the upper bound is
    held as an object by numpy), or sets the y-axis limits and draws the
    decorations. *)
Lemma run_create_plot (w : World) (b1 b2 b3 : list Sample) :
  group_by_genotype (counts w)
  = Ok [("hom_ref", b1); ("het", b2); ("hom_alt", b3)] ->
  run create_plot w =
  if floats_ok b1 && floats_ok b2 && floats_ok b3
  then match max_value_of (counts w) with
       | Ok max_value =>
           if Py.np_object_int (max_value + 10)
           then (Raise TypeError, drawn w (plot_artists b1 b2 b3 ++ legend_artists))
           else (Ok tt, drawn w (plot_artists b1 b2 b3 ++ legend_artists
                                 ++ Ylim 0 (max_value + 10) :: decorations))
       | Raise e => (Raise e, drawn w (plot_artists b1 b2 b3 ++ legend_artists))
       end
  else (Raise OverflowError, drawn w (plot_drawn b1 b2 b3)).
Proof.
  intros Hg. unfold create_plot.
  rewrite run_bind, run_figure.
  do 3 run_step. change (counts (drawn w [])) with (counts w).
  rewrite run_bind, run_lift, Hg. cbv iota beta.
  change (Py.enumerate GENOTYPES) with [(0, "hom_ref"); (1, "het"); (2, "hom_alt")].
  cbn [for_each]. rewrite run_bind.
  unfold plot_drawn.
  rewrite run_bind,
    (run_plot_genotype _ 0 "hom_ref" "blue" b1 w []) by reflexivity.
  cbn [app].
  destruct (floats_ok b1) eqn:F1; [| now rewrite app_nil_r].
  rewrite run_bind,
    (run_plot_genotype _ 1 "het" "orange" b2 w) by reflexivity.
  destruct (floats_ok b2) eqn:F2; [| now rewrite app_nil_r].
  rewrite run_bind,
    (run_plot_genotype _ 2 "hom_alt" "red" b3 w) by reflexivity.
  destruct (floats_ok b3) eqn:F3; [| now rewrite <- app_assoc].
  rewrite !genotype_drawn_ok by assumption.
  cbn [andb].
  change (Py.values ALLELE_MARKERS) with ["o"; "x"]. cbn [map_py].
  unfold plt.legend.
  repeat run_step.
  change (counts (drawn w ?l)) with (counts w).
  destruct (max_value_of (counts w)) as [max_value | e].
  - unfold plt.ylim.
    change (Py.np_object_int 0) with false. cbn [orb].
    destruct (Py.np_object_int (max_value + 10)).
    + rewrite run_bind, run_raise.
      f_equal. f_equal. unfold plot_artists, legend_artists.
      rewrite <- !app_assoc. reflexivity.
    + unfold plt.xlabel, plt.ylabel, plt.title, plt.set_xticks,
        plt.set_xticklabels, plt.spine_set_visible, plt.set_facecolor, plt.grid.
      repeat run_step.
      rewrite (run_label_genotype 0 "hom_ref" _ "blue" w) by reflexivity.
      repeat run_step.
      rewrite (run_label_genotype 1 "het" _ "orange" w) by reflexivity.
      repeat run_step.
      rewrite (run_label_genotype 2 "hom_alt" _ "red" w) by reflexivity.
      repeat run_step.
      f_equal. f_equal. unfold plot_artists, legend_artists, decorations.
      rewrite <- !app_assoc. reflexivity.
  - f_equal. f_equal. unfold plot_artists, legend_artists.
    rewrite <- !app_assoc. reflexivity.
Qed.

(* ------------------------------------------------------------------ *)
(** ** What is observed of the figure create_plot draws *)

Lemma combine_repeat_map {A B} (a : A) (f : Sample -> B) (data : list Sample) :
  combine (repeat a (length data)) (map f data) = map (fun s => (a, f s)) data.
Proof.
  induction data as [| s data IH]; cbn; [reflexivity | now rewrite IH].
Qed.

Lemma segments_app (l1 l2 : list Artist) :
  segments (l1 ++ l2) = segments l1 ++ segments l2.
Proof. apply flat_map_app. Qed.

Lemma points_app (marker : string) (l1 l2 : list Artist) :
  points marker (l1 ++ l2) = points marker l1 ++ points marker l2.
Proof. apply flat_map_app. Qed.

Lemma ylims_app (l1 l2 : list Artist) : ylims (l1 ++ l2) = ylims l1 ++ ylims l2.
Proof. apply flat_map_app. Qed.

Section GenotypeArtists.

Variables (i : Z) (colour : string) (data : list Sample).

Lemma segments_joins :
  segments (join_artists i colour data)
  = map (fun s => ([x_1 i; x_2 i], [allele_1_count s; allele_2_count s], colour)) data.
Proof.
  unfold segments, join_artists.
  induction data as [| s l IH]; cbn [map flat_map app]; [reflexivity | now f_equal].
Qed.

Lemma points_joins (marker : string) : points marker (join_artists i colour data) = [].
Proof.
  unfold points, join_artists.
  induction data as [| s l IH]; cbn [map flat_map app]; [reflexivity | exact IH].
Qed.

Lemma ylims_joins : ylims (join_artists i colour data) = [].
Proof.
  unfold ylims, join_artists.
  induction data as [| s l IH]; cbn [map flat_map app]; [reflexivity | exact IH].
Qed.

Lemma segments_genotype_artists :
  segments (genotype_artists i colour data)
  = map (fun s => ([x_1 i; x_2 i], [allele_1_count s; allele_2_count s], colour)) data.
Proof. unfold genotype_artists. rewrite segments_app. apply segments_joins. Qed.

Lemma points_1_genotype_artists :
  points "o" (genotype_artists i colour data)
  = map (fun s => (x_1 i, allele_1_count s)) data.
Proof.
  unfold genotype_artists. rewrite points_app, points_joins. cbn.
  now rewrite !app_nil_r, combine_repeat_map.
Qed.

Lemma points_2_genotype_artists :
  points "x" (genotype_artists i colour data)
  = map (fun s => (x_2 i, allele_2_count s)) data.
Proof.
  unfold genotype_artists. rewrite points_app, points_joins. cbn.
  now rewrite !app_nil_r, combine_repeat_map.
Qed.

Lemma ylims_genotype_artists : ylims (genotype_artists i colour data) = [].
Proof. unfold genotype_artists. rewrite ylims_app. apply ylims_joins. Qed.

End GenotypeArtists.

Lemma ylims_plot_artists (b1 b2 b3 : list Sample) : ylims (plot_artists b1 b2 b3) = [].
Proof.
  unfold plot_artists. now rewrite !ylims_app, !ylims_genotype_artists.
Qed.

Lemma ylims_plot_drawn (b1 b2 b3 : list Sample) : ylims (plot_drawn b1 b2 b3) = [].
Proof.
  destruct (plot_drawn_prefix b1 b2 b3) as [rest E].
  pose proof (ylims_plot_artists b1 b2 b3) as H.
  rewrite E, ylims_app in H. now apply app_eq_nil in H.
Qed.

(** What create_plot leaves on its figure when every count of the buckets
    has a float: the three categories, the legend, and a tail that holds no
    point and no segment; the tail is empty when the max computation or
    plt.ylim raised, and starts with the y-axis limits otherwise. *)
Lemma create_plot_artists (w : World) (b1 b2 b3 : list Sample) :
  group_by_genotype (counts w)
  = Ok [("hom_ref", b1); ("het", b2); ("hom_alt", b3)] ->
  floats_ok b1 = true -> floats_ok b2 = true -> floats_ok b3 = true ->
  exists tail,
    artists (plt.gcf (snd (run create_plot w)))
    = plot_artists b1 b2 b3 ++ legend_artists ++ tail /\
    segments tail = [] /\
    (forall marker, points marker tail = []) /\
    ((tail = [] /\ fst (run create_plot w) <> Ok tt) \/
     (exists max_value, max_value_of (counts w) = Ok max_value /\
                        tail = Ylim 0 (max_value + 10) :: decorations /\
                        fst (run create_plot w) = Ok tt)).
Proof.
  intros Hg F1 F2 F3. rewrite (run_create_plot w b1 b2 b3 Hg), F1, F2, F3.
  cbn [andb].
  destruct (max_value_of (counts w)) as [max_value | e];
    [destruct (Py.np_object_int (max_value + 10)) |].
  - exists []. cbn [fst snd plt.gcf drawn figures artists].
    rewrite app_nil_r. repeat split; auto. left. split; [reflexivity | discriminate].
  - exists (Ylim 0 (max_value + 10) :: decorations). cbn [fst snd].
    repeat split; eauto.
  - exists []. cbn [fst snd plt.gcf drawn figures artists].
    rewrite app_nil_r. repeat split; auto. left. split; [reflexivity | discriminate].
Qed.

(** In every case, what create_plot leaves on its figure is a beginning of
    the three categories, the legend and such a tail. *)
Lemma create_plot_prefix (w : World) (b1 b2 b3 : list Sample) :
  group_by_genotype (counts w)
  = Ok [("hom_ref", b1); ("het", b2); ("hom_alt", b3)] ->
  exists done rest tail,
    snd (run create_plot w) = drawn w done /\
    plot_artists b1 b2 b3 ++ legend_artists ++ tail = done ++ rest /\
    (tail = [] \/ exists max_value, tail = Ylim 0 (max_value + 10) :: decorations).
Proof.
  intros Hg. rewrite (run_create_plot w b1 b2 b3 Hg).
  destruct (floats_ok b1 && floats_ok b2 && floats_ok b3).
  - destruct (max_value_of (counts w)) as [max_value | e];
      [destruct (Py.np_object_int (max_value + 10)) |]; cbn [snd].
    + exists (plot_artists b1 b2 b3 ++ legend_artists), [], [].
      rewrite !app_nil_r. auto.
    + exists (plot_artists b1 b2 b3 ++ legend_artists
              ++ Ylim 0 (max_value + 10) :: decorations), [],
        (Ylim 0 (max_value + 10) :: decorations).
      rewrite !app_nil_r. eauto.
    + exists (plot_artists b1 b2 b3 ++ legend_artists), [], [].
      rewrite !app_nil_r. auto.
  - destruct (plot_drawn_prefix b1 b2 b3) as [rest E]. cbn [snd].
    exists (plot_drawn b1 b2 b3), (rest ++ legend_artists), [].
    rewrite E, app_nil_r, <- app_assoc. auto.
Qed.

(* ------------------------------------------------------------------ *)
(** ** The max computation of line 119 *)

Lemma fold_left_pick {A} (gt : A -> A -> bool) (l : list A) (a : A) :
  In (fold_left (fun best x => if gt x best then x else best) l a) (a :: l).
Proof.
  revert a. induction l as [| x l IH]; intros a; cbn [fold_left].
  - now left.
  - destruct (IH (if gt x a then x else a)) as [E | Hin].
    + rewrite <- E. destruct (gt x a); [right; now left | now left].
    + right. now right.
Qed.

Lemma max_In {A} (gt : A -> A -> bool) (l : list A) (b : A) :
  Py.max gt l = Ok b -> In b l.
Proof.
  destruct l as [| a l]; cbn; intros H; [discriminate |].
  inversion H. apply fold_left_pick.
Qed.

(** On a non-empty dataset the computation returns the larger count of one
    of the samples. *)
Lemma max_value_of_nonempty (d : Dataset) :
  d <> [] ->
  exists s, In s (Py.values d) /\
            max_value_of d
            = Ok (if allele_2_count s >? allele_1_count s
                  then allele_2_count s else allele_1_count s).
Proof.
  intros Hne. unfold max_value_of.
  destruct (Py.max Py.list_gt
              (map (fun sample => [allele_1_count sample; allele_2_count sample])
                   (Py.values d))) as [best | e] eqn:E.
  - apply max_In, in_map_iff in E. destruct E as (s & <- & Hs).
    exists s. split; [assumption | reflexivity].
  - destruct d as [| [k s] d]; [contradiction | discriminate].
Qed.

(* ------------------------------------------------------------------ *)
(** ** The y-axis limits *)

(** The y-axis limits on the figure: set once, from 0, when create_plot
    returns, and not set when it raises. *)
Lemma ylims_outcome (w : World) :
  (fst (run create_plot w) = Ok tt ->
   exists max_value,
     max_value_of (counts w) = Ok max_value /\
     ylims (artists (plt.gcf (snd (run create_plot w)))) = [(0, max_value + 10)]) /\
  (fst (run create_plot w) <> Ok tt ->
   ylims (artists (plt.gcf (snd (run create_plot w)))) = []).
Proof.
  destruct (group_total (counts w)) as (b1 & b2 & b3 & Hg & _).
  rewrite (run_create_plot w b1 b2 b3 Hg).
  destruct (floats_ok b1 && floats_ok b2 && floats_ok b3).
  - destruct (max_value_of (counts w)) as [max_value | e];
      [destruct (Py.np_object_int (max_value + 10)) |];
      cbn [fst snd plt.gcf drawn figures artists];
      (split; [intros H; try discriminate H | intros H; try (now contradiction H)]).
    + now rewrite !ylims_app, ylims_plot_artists.
    + exists max_value. split; [reflexivity |].
      now rewrite !ylims_app, ylims_plot_artists.
    + now rewrite !ylims_app, ylims_plot_artists.
  - cbn [fst snd plt.gcf drawn figures artists].
    split; [discriminate | intros _; apply ylims_plot_drawn].
Qed.

(** How create_plot ends, from the buckets and the max computation. *)
Lemma create_plot_outcome (w : World) (b1 b2 b3 : list Sample) :
  group_by_genotype (counts w)
  = Ok [("hom_ref", b1); ("het", b2); ("hom_alt", b3)] ->
  fst (run create_plot w)
  = if floats_ok b1 && floats_ok b2 && floats_ok b3
    then match max_value_of (counts w) with
         | Ok max_value =>
             if Py.np_object_int (max_value + 10) then Raise TypeError else Ok tt
         | Raise e => Raise e
         end
    else Raise OverflowError.
Proof.
  intros Hg. rewrite (run_create_plot w b1 b2 b3 Hg).
  destruct (floats_ok b1 && floats_ok b2 && floats_ok b3); [| reflexivity].
  destruct (max_value_of (counts w)) as [max_value | e]; [| reflexivity].
  destruct (Py.np_object_int (max_value + 10)); reflexivity.
Qed.

(** When create_plot returns, the figure is complete. *)
Lemma create_plot_returned (w : World) (b1 b2 b3 : list Sample) :
  group_by_genotype (counts w)
  = Ok [("hom_ref", b1); ("het", b2); ("hom_alt", b3)] ->
  fst (run create_plot w) = Ok tt ->
  exists max_value,
    max_value_of (counts w) = Ok max_value /\
    snd (run create_plot w)
    = drawn w (plot_artists b1 b2 b3 ++ legend_artists
               ++ Ylim 0 (max_value + 10) :: decorations).
Proof.
  intros Hg. rewrite (run_create_plot w b1 b2 b3 Hg).
  destruct (floats_ok b1 && floats_ok b2 && floats_ok b3); [| discriminate].
  destruct (max_value_of (counts w)) as [max_value | e]; [| discriminate].
  destruct (Py.np_object_int (max_value + 10)); [discriminate |].
  intros _. now exists max_value.
Qed.

Lemma in_range_float (c : Z) :
  count_in_range c = true -> Py.float_overflows c = false.
Proof.
  unfold count_in_range, Py.float_overflows. intros H.
  apply andb_true_iff in H. destruct H as [H1 H2].
  apply Z.leb_le in H1. apply Z.ltb_lt in H2. apply Z.leb_gt.
  assert (Hpow : 2 ^ 64 < 2 ^ 1024 - 2 ^ 970) by reflexivity.
  assert (H63 : 2 ^ 63 + 10 < 2 ^ 1024 - 2 ^ 970) by reflexivity.
  assert (H0 : 0 < 2 ^ 63) by reflexivity.
  revert Hpow H63 H0 H1 H2.
  generalize (2 ^ 1024 - 2 ^ 970) (2 ^ 64) (2 ^ 63). intros A B C. lia.
Qed.

Lemma in_range_np (c : Z) :
  count_in_range c = true -> Py.np_object_int (c + 10) = false.
Proof.
  unfold count_in_range, Py.np_object_int. intros H.
  apply andb_true_iff in H. destruct H as [H1 H2].
  apply Z.leb_le in H1. apply Z.ltb_lt in H2.
  apply orb_false_iff. split; [apply Z.ltb_ge | apply Z.leb_gt]; assumption.
Qed.

Lemma plottable_floats (d : Dataset) (data : list Sample) :
  plottable d = true ->
  (forall s, In s data -> In s (Py.values d)) ->
  floats_ok data = true.
Proof.
  unfold plottable, floats_ok. rewrite !forallb_forall. intros H Hincl s Hs.
  specialize (H s (Hincl s Hs)). apply andb_true_iff in H. destruct H as [H1 H2].
  now rewrite (in_range_float _ H1), (in_range_float _ H2).
Qed.

(** On a non-empty dataset whose counts are in range, create_plot returns. *)
Lemma create_plot_returns (w : World) :
  counts w <> [] -> plottable (counts w) = true -> fst (run create_plot w) = Ok tt.
Proof.
  intros Hne Hp.
  destruct (group_total (counts w)) as (b1 & b2 & b3 & Hg & B1 & B2 & B3).
  rewrite (create_plot_outcome w b1 b2 b3 Hg).
  rewrite (plottable_floats _ b1 Hp) by (intros s Hs; exact (proj2 (bucket_In _ _ _ _ B1 Hs))).
  rewrite (plottable_floats _ b2 Hp) by (intros s Hs; exact (proj2 (bucket_In _ _ _ _ B2 Hs))).
  rewrite (plottable_floats _ b3 Hp) by (intros s Hs; exact (proj2 (bucket_In _ _ _ _ B3 Hs))).
  cbn [andb].
  destruct (max_value_of_nonempty (counts w) Hne) as (s & Hs & Hm). rewrite Hm.
  unfold plottable in Hp. rewrite forallb_forall in Hp. specialize (Hp s Hs).
  apply andb_true_iff in Hp. destruct Hp as [H1 H2].
  destruct (allele_2_count s >? allele_1_count s);
    [rewrite (in_range_np _ H2) | rewrite (in_range_np _ H1)]; reflexivity.
Qed.

(** C1, evaluated where the code departs from it: on the built-in example
    dataset create_plot sets the y-axis upper bound to 70, although the
    greatest allele count over all samples and both slots is 62, for which
    the claim asks the bound 62 + 10 = 72. *)
Theorem ylim_upper_example_data :
  ylims (artists (plt.gcf (snd (run create_plot (world_of EXAMPLE_DATA))))) = [(0, 70)]
  /\ global_max EXAMPLE_DATA = 62.
Proof. split; reflexivity. Qed.

(** The same computation can leave a plotted count above the axis: with the
    counts (5, 1) and (4, 100) the upper bound is 15. *)
Example ylim_upper_below_a_count :
  ylims (artists (plt.gcf (snd (run create_plot
           (world_of [("a", mkSample "het" 5 1); ("b", mkSample "het" 4 100)])))))
  = [(0, 15)].
Proof. reflexivity. Qed.

(** C3: on the empty dataset create_plot raises at the max computation
    (max of an empty sequence): everything up to the legend has been drawn,
    and no y-axis limits have been set. *)
Theorem create_plot_empty_dataset (w : World) :
  counts w = [] ->
  max_value_of (counts w) = Raise ValueError /\
  fst (run create_plot w) = Raise ValueError /\
  artists (plt.gcf (snd (run create_plot w))) = plot_artists [] [] [] ++ legend_artists /\
  ylims (artists (plt.gcf (snd (run create_plot w)))) = [].
Proof.
  destruct w as [d figs wr files]. cbn [counts]. intros ->.
  repeat split; reflexivity.
Qed.

Lemma create_plot_empty_dataset_witness :
  fst (run create_plot (world_of [])) = Raise ValueError /\
  ylims (artists (plt.gcf (snd (run create_plot (world_of []))))) = [].
Proof.
  destruct (create_plot_empty_dataset (world_of []) eq_refl) as (_ & H1 & _ & H2).
  split; [exact H1 | exact H2].
Defined.



(* ------------------------------------------------------------------ *)
(** ** The dataset is left alone *)

(** C9: create_plot never modifies the dataset it is given: after the call,
    returned or raised, the dict object holds the same samples, in the same
    order, with the same records. *)
Theorem create_plot_keeps_dataset (w : World) :
  counts (snd (run create_plot w)) = counts w.
Proof. exact (proj1 (only_draws_create_plot w)). Qed.

(* ------------------------------------------------------------------ *)
(** ** The main block and the saved image *)

Lemma read_data_world (path : option string) (w : World) :
  snd (run (read_data path) w) = w.
Proof.
  destruct path as [p |]; cbn; [| reflexivity].
  destruct (Py.getitem (json_files w) p) as [[d |] | e]; reflexivity.
Qed.

(** The main block, one call after the other. *)
Lemma run_main (args : Namespace) (w : World) :
  run (main args) w =
  match fst (run (read_data (input_json args)) w) with
  | Raise e => (Raise e, w)
  | Ok allele_counts =>
      match run create_plot (mkWorld allele_counts (figures w) (written w) (json_files w)) with
      | (Raise e, w') => (Raise e, w')
      | (Ok _, w') =>
          if save_plot args
          then run (plt.savefig "allele_count_graph.png" 300) w'
          else (Ok tt, w')
      end
  end.
Proof.
  unfold main. rewrite run_bind.
  pose proof (read_data_world (input_json args) w) as Hw.
  destruct (run (read_data (input_json args)) w) as [[d | e] w0]; cbn [fst snd] in *;
    subst w0; [| reflexivity].
  rewrite run_bind.
  change (run (store_counts d) w)
    with (Ok tt, mkWorld d (figures w) (written w) (json_files w)).
  cbv iota beta. rewrite run_bind.
  destruct (run create_plot _) as [[[] | e] w']; [| reflexivity].
  destruct (save_plot args); reflexivity.
Qed.



(* ------------------------------------------------------------------ *)
(** ** The grouping is a stable partition *)

Lemma samples_of_In (g : string) (d : Dataset) (k : string) (s : Sample) :
  In (k, s) (samples_of g d) <-> In (k, s) d /\ genotype s = g.
Proof.
  unfold samples_of. rewrite filter_In. cbn [snd].
  now rewrite String.eqb_eq.
Qed.

Lemma valid_genotype_In (g : string) : valid_genotype g = true <-> In g GENOTYPES.
Proof. apply existsb_eqb_In. Qed.

Lemma valid_dataset_In (d : Dataset) (k : string) (s : Sample) :
  valid_dataset d = true -> In (k, s) d -> In (genotype s) GENOTYPES.
Proof.
  unfold valid_dataset. rewrite forallb_forall. intros H Hin.
  apply valid_genotype_In, H. unfold Py.values.
  change s with (snd (k, s)). now apply in_map.
Qed.

(** The three buckets, one after the other, hold the records of a valid
    dataset, each once. *)
Lemma buckets_permutation (l : list Sample) :
  forallb (fun s => valid_genotype (genotype s)) l = true ->
  Permutation
    (filter (fun s => String.eqb (genotype s) "hom_ref") l
     ++ filter (fun s => String.eqb (genotype s) "het") l
     ++ filter (fun s => String.eqb (genotype s) "hom_alt") l)
    l.
Proof.
  induction l as [| s l IH]; intros Hv; [constructor |].
  cbn [forallb] in Hv. apply andb_true_iff in Hv. destruct Hv as [Hs Hl].
  specialize (IH Hl). apply valid_genotype_In in Hs.
  cbn [filter]. cbn [GENOTYPES In] in Hs.
  destruct Hs as [E | [E | [E | []]]]; rewrite <- E; cbn.
  - now constructor.
  - symmetry. apply Permutation_cons_app. now symmetry.
  - symmetry. rewrite app_assoc. apply Permutation_cons_app.
    rewrite <- app_assoc. now symmetry.
Qed.

(** C5: on a valid dataset the grouping has one bucket per category, in the
    order of GENOTYPES; the bucket of a category holds the records of the
    samples of that category in the order of the input (the filter of the
    input, so an empty bucket when the category has no sample); every
    sample falls in the bucket of its genotype and in no other; and the
    buckets together hold every record once. *)
Theorem grouping_is_stable_partition (d : Dataset) :
  Py.dict_wf d = true ->
  valid_dataset d = true ->
  exists buckets,
    group_by_genotype d = Ok buckets /\
    Py.keys buckets = GENOTYPES /\
    (forall g b, In (g, b) buckets -> b = Py.values (samples_of g d)) /\
    (forall k s, In (k, s) d ->
       In (genotype s) GENOTYPES /\
       forall g, In (k, s) (samples_of g d) <-> g = genotype s) /\
    Permutation (concat (Py.values buckets)) (Py.values d).
Proof.
  intros Hwf Hv. eexists. split; [exact (group_wf d Hwf) |].
  split; [reflexivity |]. split; [| split].
  - intros g b Hin. cbn [In] in Hin.
    destruct Hin as [E | [E | [E | []]]]; now inversion E.
  - intros k s Hin. split; [exact (valid_dataset_In d k s Hv Hin) |].
    intros g. rewrite samples_of_In. split; [intros [_ E]; now symmetry | auto].
  - cbn [Py.values map snd concat]. rewrite app_nil_r, !values_samples_of.
    now apply buckets_permutation.
Qed.

Lemma grouping_is_stable_partition_witness :
  exists buckets,
    group_by_genotype EXAMPLE_DATA = Ok buckets /\
    Py.keys buckets = GENOTYPES /\
    Permutation (concat (Py.values buckets)) (Py.values EXAMPLE_DATA).
Proof.
  destruct (grouping_is_stable_partition EXAMPLE_DATA eq_refl eq_refl)
    as (buckets & Hg & Hk & _ & _ & Hp).
  exists buckets. auto.
Defined.

(** C6: on the built-in example dataset the grouping yields two samples in
    each of the three categories: samples 1 and 2 are hom_ref, 3 and 4 het,
    5 and 6 hom_alt. *)
Theorem example_data_two_per_genotype :
  exists b1 b2 b3,
    group_by_genotype EXAMPLE_DATA
    = Ok [("hom_ref", b1); ("het", b2); ("hom_alt", b3)] /\
    length b1 = 2%nat /\ length b2 = 2%nat /\ length b3 = 2%nat /\
    b1 = [mkSample "hom_ref" 2 4; mkSample "hom_ref" 3 6] /\
    b2 = [mkSample "het" 4 40; mkSample "het" 5 39] /\
    b3 = [mkSample "hom_alt" 60 54; mkSample "hom_alt" 58 62].
Proof. do 3 eexists. repeat split. Qed.

(* ------------------------------------------------------------------ *)
(** ** Points and segments *)

Lemma segments_plot_artists (b1 b2 b3 : list Sample) :
  segments (plot_artists b1 b2 b3)
  = map (fun s => ([x_1 0; x_2 0], [allele_1_count s; allele_2_count s], "blue")) b1
    ++ map (fun s => ([x_1 1; x_2 1], [allele_1_count s; allele_2_count s], "orange")) b2
    ++ map (fun s => ([x_1 2; x_2 2], [allele_1_count s; allele_2_count s], "red")) b3.
Proof.
  unfold plot_artists. now rewrite !segments_app, !segments_genotype_artists.
Qed.

Lemma points_1_plot_artists (b1 b2 b3 : list Sample) :
  points "o" (plot_artists b1 b2 b3)
  = map (fun s => (x_1 0, allele_1_count s)) b1
    ++ map (fun s => (x_1 1, allele_1_count s)) b2
    ++ map (fun s => (x_1 2, allele_1_count s)) b3.
Proof.
  unfold plot_artists. now rewrite !points_app, !points_1_genotype_artists.
Qed.

Lemma points_2_plot_artists (b1 b2 b3 : list Sample) :
  points "x" (plot_artists b1 b2 b3)
  = map (fun s => (x_2 0, allele_2_count s)) b1
    ++ map (fun s => (x_2 1, allele_2_count s)) b2
    ++ map (fun s => (x_2 2, allele_2_count s)) b3.
Proof.
  unfold plot_artists. now rewrite !points_app, !points_2_genotype_artists.
Qed.

(** When every count of the buckets has a float, the points and the
    segments on the figure of create_plot are those of the three buckets. *)
Lemma observed_create_plot (w : World) (b1 b2 b3 : list Sample) :
  group_by_genotype (counts w)
  = Ok [("hom_ref", b1); ("het", b2); ("hom_alt", b3)] ->
  floats_ok b1 = true -> floats_ok b2 = true -> floats_ok b3 = true ->
  let drawn_artists := artists (plt.gcf (snd (run create_plot w))) in
  segments drawn_artists = segments (plot_artists b1 b2 b3) /\
  points "o" drawn_artists = points "o" (plot_artists b1 b2 b3) /\
  points "x" drawn_artists = points "x" (plot_artists b1 b2 b3).
Proof.
  intros Hg F1 F2 F3. cbv zeta.
  destruct (create_plot_artists w b1 b2 b3 Hg F1 F2 F3) as (tail & -> & Hs & Hp & _).
  rewrite !segments_app, !points_app, Hs, !Hp.
  change (segments legend_artists) with (@nil (list float * list Z * string)).
  change (points "o" legend_artists) with (@nil (float * Z)).
  change (points "x" legend_artists) with (@nil (float * Z)).
  now rewrite !app_nil_r.
Qed.

(** In every case, the points and the segments on the figure of create_plot
    are among those of the three buckets. *)
Lemma observed_in (w : World) (b1 b2 b3 : list Sample) :
  group_by_genotype (counts w)
  = Ok [("hom_ref", b1); ("het", b2); ("hom_alt", b3)] ->
  let drawn_artists := artists (plt.gcf (snd (run create_plot w))) in
  (forall seg, In seg (segments drawn_artists) ->
               In seg (segments (plot_artists b1 b2 b3))) /\
  (forall p, In p (points "o" drawn_artists) ->
             In p (points "o" (plot_artists b1 b2 b3))) /\
  (forall p, In p (points "x" drawn_artists) ->
             In p (points "x" (plot_artists b1 b2 b3))).
Proof.
  intros Hg. cbv zeta.
  destruct (create_plot_prefix w b1 b2 b3 Hg) as (done & rest & tail & -> & E & Ht).
  cbn [plt.gcf drawn figures artists].
  assert (Hs : segments (plot_artists b1 b2 b3) = segments done ++ segments rest).
  { rewrite <- segments_app, <- E, !segments_app.
    destruct Ht as [-> | [m ->]]; cbn; now rewrite !app_nil_r. }
  assert (H1 : points "o" (plot_artists b1 b2 b3)
               = points "o" done ++ points "o" rest).
  { rewrite <- points_app, <- E, !points_app.
    destruct Ht as [-> | [m ->]]; cbn; now rewrite !app_nil_r. }
  assert (H2 : points "x" (plot_artists b1 b2 b3)
               = points "x" done ++ points "x" rest).
  { rewrite <- points_app, <- E, !points_app.
    destruct Ht as [-> | [m ->]]; cbn; now rewrite !app_nil_r. }
  rewrite Hs, H1, H2. repeat split; intros x Hx; apply in_or_app; now left.
Qed.

(** The counts of the buckets have floats when those of the recognised
    samples have. *)
Lemma drawable_bucket (d : Dataset) (g : string) (b : list Sample) :
  drawable d = true -> valid_genotype g = true -> bucket d g = Ok b ->
  floats_ok b = true.
Proof.
  unfold drawable, floats_ok, recognised. rewrite !forallb_forall.
  intros Hd Hg Hb s Hs. destruct (bucket_In d g b s Hb Hs) as [E Hv].
  apply Hd. apply filter_In. split; [exact Hv | now rewrite E].
Qed.

Lemma buckets_length (d : Dataset) :
  valid_dataset d = true ->
  (length (Py.values (samples_of "hom_ref" d))
   + length (Py.values (samples_of "het" d))
   + length (Py.values (samples_of "hom_alt" d)))%nat
  = length d.
Proof.
  intros Hv. rewrite !values_samples_of.
  pose proof (Permutation_length (buckets_permutation _ Hv)) as H.
  rewrite !length_app in H. unfold Py.values in H at 4. rewrite length_map in H.
  lia.
Qed.

Lemma combine_app_eq {A B} (l1 l2 : list A) (m1 m2 : list B) :
  length l1 = length m1 ->
  combine (l1 ++ l2) (m1 ++ m2) = combine l1 m1 ++ combine l2 m2.
Proof.
  revert m1. induction l1 as [| a l1 IH]; intros [| b m1] H; cbn in *;
    try discriminate; [reflexivity |].
  f_equal. apply IH. now inversion H.
Qed.

Lemma combine_map_map {A B} (f : Sample -> A) (h : Sample -> B) (l : list Sample) :
  combine (map f l) (map h l) = map (fun s => (f s, h s)) l.
Proof. induction l as [| s l IH]; cbn; [reflexivity | now rewrite IH]. Qed.

(** C4, refuted as stated: on a valid dataset with one sample whose
    allele-1 count is 2^1024, plt.scatter raises OverflowError and no point
    pair is drawn, for one sample. *)
Lemma huge_count_draws_no_pair :
  Py.dict_wf huge_count_data = true /\
  valid_dataset huge_count_data = true /\
  length huge_count_data = 1%nat /\
  fst (run create_plot (world_of huge_count_data)) = Raise OverflowError /\
  segments (artists (plt.gcf (snd (run create_plot (world_of huge_count_data))))) = [].
Proof. vm_compute. repeat split. Qed.

(** C4, amended: on a valid dataset in which every count has a float (its
    magnitude is below 2^1024 - 2^970, so that plt.scatter takes it),
    create_plot draws as many connecting segments as there are samples, as
    many allele-1 points and as many allele-2 points, and the n-th segment
    joins the n-th allele-1 point to the n-th allele-2 point: one point pair
    per sample. *)
Theorem point_pairs_count (w : World) :
  Py.dict_wf (counts w) = true ->
  valid_dataset (counts w) = true ->
  drawable (counts w) = true ->
  let drawn_artists := artists (plt.gcf (snd (run create_plot w))) in
  length (segments drawn_artists) = length (counts w) /\
  length (points "o" drawn_artists) = length (counts w) /\
  length (points "x" drawn_artists) = length (counts w) /\
  map ends (segments drawn_artists)
  = map (fun pq => [fst pq; snd pq])
        (combine (points "o" drawn_artists) (points "x" drawn_artists)).
Proof.
  intros Hwf Hv Hd.
  assert (F : forall g', valid_genotype g' = true ->
                         floats_ok (Py.values (samples_of g' (counts w))) = true).
  { intros g' Hg'. apply (drawable_bucket _ g' _ Hd Hg'). now apply bucket_wf. }
  destruct (observed_create_plot w _ _ _ (group_wf _ Hwf)
              (F "hom_ref" eq_refl) (F "het" eq_refl) (F "hom_alt" eq_refl))
    as (Hs & H1 & H2).
  clear F.
  cbv zeta. rewrite Hs, H1, H2.
  rewrite segments_plot_artists, points_1_plot_artists, points_2_plot_artists.
  rewrite !length_app, !length_map.
  pose proof (buckets_length _ Hv). repeat split; try lia.
  rewrite !combine_app_eq by now rewrite !length_map.
  rewrite !combine_map_map, !map_app, !map_map. reflexivity.
Qed.

Lemma point_pairs_count_witness :
  length (segments (artists (plt.gcf (snd (run create_plot (world_of EXAMPLE_DATA))))))
  = 6%nat.
Proof.
  exact (proj1 (point_pairs_count (world_of EXAMPLE_DATA) eq_refl eq_refl eq_refl)).
Defined.

(** C7, refuted as stated: in a valid dataset, the sample of category het
    (index 1) whose allele-1 count is 2^1024 has no point at x = 1.5:
    plt.scatter raises OverflowError on that count. *)
Lemma huge_count_sample_not_drawn :
  Py.dict_wf huge_count_data = true /\
  valid_dataset huge_count_data = true /\
  nth_error GENOTYPES 1 = Some "het" /\
  In ("3", mkSample "het" (2 ^ 1024) 40) huge_count_data /\
  ~ In (fst (slot_x 1), 2 ^ 1024)
       (points "o" (artists (plt.gcf (snd (run create_plot (world_of huge_count_data)))))).
Proof.
  repeat split; try reflexivity; [now left |].
  assert (E : points "o" (artists (plt.gcf (snd (run create_plot
                                                   (world_of huge_count_data)))))
              = []) by (vm_compute; reflexivity).
  rewrite E. intros [].
Qed.

(** C7, amended: when every count of the samples with a recognised genotype
    has a float (its magnitude is below 2^1024 - 2^970, so that plt.scatter
    and plt.plot take it), then for the category at index i of GENOTYPES
    (0 hom_ref, 1 het, 2 hom_alt), every sample of that category has its
    allele-1 count drawn as a point at x = 2*i - 0.5 and its allele-2 count
    at x = 2*i + 0.5, and a segment in the category's colour joins these two
    points; the two x positions depend on the category only. *)
Theorem sample_drawn_at_slots (w : World) (i : nat) (g k : string) (s : Sample) :
  Py.dict_wf (counts w) = true ->
  drawable (counts w) = true ->
  nth_error GENOTYPES i = Some g ->
  In (k, s) (counts w) ->
  genotype s = g ->
  let drawn_artists := artists (plt.gcf (snd (run create_plot w))) in
  let '(x1, x2) := slot_x i in
  In (x1, allele_1_count s) (points "o" drawn_artists) /\
  In (x2, allele_2_count s) (points "x" drawn_artists) /\
  exists colour,
    Py.getitem GENOTYPE_COLOURS g = Ok colour /\
    In ([x1; x2], [allele_1_count s; allele_2_count s], colour)
       (segments drawn_artists).
Proof.
  intros Hwf Hd Hi Hin Hg.
  assert (F : forall g', valid_genotype g' = true ->
                         floats_ok (Py.values (samples_of g' (counts w))) = true).
  { intros g' Hg'. apply (drawable_bucket _ g' _ Hd Hg'). now apply bucket_wf. }
  destruct (observed_create_plot w _ _ _ (group_wf _ Hwf)
              (F "hom_ref" eq_refl) (F "het" eq_refl) (F "hom_alt" eq_refl))
    as (Hs & H1 & H2).
  clear F.
  cbv zeta. rewrite Hs, H1, H2.
  rewrite segments_plot_artists, points_1_plot_artists, points_2_plot_artists.
  assert (Hb : In s (Py.values (samples_of g (counts w)))).
  { unfold Py.values. change s with (snd (k, s)). apply in_map.
    now apply samples_of_In. }
  clear Hg Hin.
  destruct i as [| [| [| i]]]; cbn in Hi;
    [| | | destruct i; discriminate Hi ];
    inversion Hi; subst g; clear Hi; cbn [slot_x]; rewrite !in_app_iff.
  - split; [| split].
    + left. exact (in_map (fun s => (x_1 0, allele_1_count s)) _ s Hb).
    + left. exact (in_map (fun s => (x_2 0, allele_2_count s)) _ s Hb).
    + exists "blue". split; [reflexivity |]. rewrite !in_app_iff. left.
      exact (in_map (fun s => ([x_1 0; x_2 0], [allele_1_count s; allele_2_count s],
                               "blue")) _ s Hb).
  - split; [| split].
    + right. left. exact (in_map (fun s => (x_1 1, allele_1_count s)) _ s Hb).
    + right. left. exact (in_map (fun s => (x_2 1, allele_2_count s)) _ s Hb).
    + exists "orange". split; [reflexivity |]. rewrite !in_app_iff. right. left.
      exact (in_map (fun s => ([x_1 1; x_2 1], [allele_1_count s; allele_2_count s],
                               "orange")) _ s Hb).
  - split; [| split].
    + right. right. exact (in_map (fun s => (x_1 2, allele_1_count s)) _ s Hb).
    + right. right. exact (in_map (fun s => (x_2 2, allele_2_count s)) _ s Hb).
    + exists "red". split; [reflexivity |]. rewrite !in_app_iff. right. right.
      exact (in_map (fun s => ([x_1 2; x_2 2], [allele_1_count s; allele_2_count s],
                               "red")) _ s Hb).
Qed.

Lemma sample_drawn_at_slots_witness :
  let drawn_artists :=
    artists (plt.gcf (snd (run create_plot (world_of EXAMPLE_DATA)))) in
  In (1.5%float, 4) (points "o" drawn_artists) /\
  In (2.5%float, 40) (points "x" drawn_artists).
Proof.
  pose proof (sample_drawn_at_slots (world_of EXAMPLE_DATA) 1 "het" "3"
                (mkSample "het" 4 40) eq_refl eq_refl eq_refl
                (or_intror (or_intror (or_introl eq_refl))) eq_refl)
    as (H1 & H2 & _).
  split; [exact H1 | exact H2].
Defined.

(* ------------------------------------------------------------------ *)
(** ** Records with an unrecognised genotype *)

Lemma invalid_nonempty (d : Dataset) : valid_dataset d = false -> d <> [].
Proof. intros H ->. discriminate H. Qed.

(** C2, refuted as stated: a dataset whose only record has a genotype
    outside the three categories makes create_plot return normally; no
    lookup raises. *)
Lemma unknown_genotype_returns :
  valid_dataset [("7", mkSample "homozygous" 3 5)] = false /\
  fst (run create_plot (world_of [("7", mkSample "homozygous" 3 5)])) = Ok tt.
Proof. split; reflexivity. Qed.

Lemma max_raises_value_error {A} (gt : A -> A -> bool) (l : list A) (e : PyExn) :
  Py.max gt l = Raise e -> e = ValueError.
Proof. destruct l; cbn; intros H; now inversion H. Qed.

Lemma max_value_of_raises (d : Dataset) (e : PyExn) :
  max_value_of d = Raise e -> e = ValueError.
Proof.
  unfold max_value_of.
  destruct (Py.max Py.list_gt _) as [best | e'] eqn:E; cbn; intros H.
  - exact (max_raises_value_error _ _ _ H).
  - inversion H; subst. exact (max_raises_value_error _ _ _ E).
Qed.

(** create_plot never ends in a key-lookup failure. *)
Lemma create_plot_no_key_error (w : World) (key : string) :
  fst (run create_plot w) <> Raise (KeyError key).
Proof.
  destruct (group_total (counts w)) as (b1 & b2 & b3 & Hg & _).
  rewrite (create_plot_outcome w b1 b2 b3 Hg).
  destruct (floats_ok b1 && floats_ok b2 && floats_ok b3); [| discriminate].
  destruct (max_value_of (counts w)) as [m | e] eqn:E.
  - destruct (Py.np_object_int (m + 10)); discriminate.
  - rewrite (max_value_of_raises _ _ E). discriminate.
Qed.

(** C2, amended: on a dataset that contains a record whose genotype is none
    of the three categories, create_plot raises no key-lookup failure; the
    grouping has exactly the three fixed buckets, a record with an
    unrecognised genotype is in none of them, and the points and segments
    drawn are among those of the three buckets; when moreover every count c
    has c + 10 in the range of int64 or uint64, create_plot returns
    normally. *)
Theorem unknown_genotype_is_skipped (w : World) :
  valid_dataset (counts w) = false ->
  (forall key, fst (run create_plot w) <> Raise (KeyError key)) /\
  (plottable (counts w) = true -> fst (run create_plot w) = Ok tt) /\
  exists b1 b2 b3,
    group_by_genotype (counts w)
    = Ok [("hom_ref", b1); ("het", b2); ("hom_alt", b3)] /\
    (forall s, valid_genotype (genotype s) = false ->
               ~ In s b1 /\ ~ In s b2 /\ ~ In s b3) /\
    let drawn_artists := artists (plt.gcf (snd (run create_plot w))) in
    (forall seg, In seg (segments drawn_artists) ->
                 In seg (segments (plot_artists b1 b2 b3))) /\
    (forall p, In p (points "o" drawn_artists) ->
               In p (points "o" (plot_artists b1 b2 b3))) /\
    (forall p, In p (points "x" drawn_artists) ->
               In p (points "x" (plot_artists b1 b2 b3))).
Proof.
  intros Hinv. split; [| split].
  - intros key. apply create_plot_no_key_error.
  - intros Hp. exact (create_plot_returns w (invalid_nonempty _ Hinv) Hp).
  - destruct (group_total (counts w)) as (b1 & b2 & b3 & Hg & H1 & H2 & H3).
    exists b1, b2, b3. split; [exact Hg |]. split.
    + intros s Hs. repeat split; intros Hsb;
        [ destruct (bucket_In _ _ _ _ H1 Hsb) as [E _]
        | destruct (bucket_In _ _ _ _ H2 Hsb) as [E _]
        | destruct (bucket_In _ _ _ _ H3 Hsb) as [E _] ];
        rewrite E in Hs; discriminate Hs.
    + exact (observed_in w b1 b2 b3 Hg).
Qed.

Lemma unknown_genotype_is_skipped_witness :
  valid_dataset [("7", mkSample "homozygous" 3 5)] = false /\
  fst (run create_plot (world_of [("7", mkSample "homozygous" 3 5)])) = Ok tt.
Proof.
  assert (H : valid_dataset (counts (world_of [("7", mkSample "homozygous" 3 5)])) = false)
    by reflexivity.
  split; [exact H | exact (proj1 (proj2 (unknown_genotype_is_skipped _ H)) eq_refl)].
Defined.

(* ------------------------------------------------------------------ *)
(** ** Further properties of create_plot: the figure *)

Lemma figures_create_plot (w : World) :
  figures (snd (run create_plot w)) = plt.gcf (snd (run create_plot w)) :: figures w /\
  figsize (plt.gcf (snd (run create_plot w))) = Some (10, 10).
Proof.
  destruct (group_total (counts w)) as (b1 & b2 & b3 & Hg & _).
  destruct (create_plot_prefix w b1 b2 b3 Hg) as (done & rest & tail & -> & _).
  split; reflexivity.
Qed.

(** create_plot draws on a figure of its own: it opens one new figure of
    size 10 by 10, which becomes the current one, and leaves the figures
    that existed, the files written and the readable files as they were,
    whether it returns or raises. *)
Theorem create_plot_opens_one_figure (w : World) :
  let w' := snd (run create_plot w) in
  figures w' = plt.gcf w' :: figures w /\
  figsize (plt.gcf w') = Some (10, 10) /\
  written w' = written w /\
  json_files w' = json_files w.
Proof.
  cbv zeta. destruct (figures_create_plot w) as [Hf Hs].
  destruct (only_draws_create_plot w) as (_ & Hw & Hj). auto.
Qed.

Lemma slot_x_spec (i : nat) :
  (i < 3)%nat -> slot_x i = (x_1 (Z.of_nat i), x_2 (Z.of_nat i)).
Proof.
  intros H. destruct i as [| [| [| i]]]; [reflexivity | reflexivity | reflexivity | lia].
Qed.

Lemma bucket_sample (d : Dataset) (g : string) (b : list Sample) (s : Sample) :
  bucket d g = Ok b -> In s b -> exists k, In (k, s) d /\ genotype s = g.
Proof.
  intros Hb Hin. destruct (bucket_In d g b s Hb Hin) as [Hg Hv].
  unfold Py.values in Hv. apply in_map_iff in Hv.
  destruct Hv as ([k s'] & E & Hd). cbn in E. subst s'. eauto.
Qed.

(** Whatever is laid out bucket by bucket comes from a sample of the
    dataset whose genotype is the bucket's category. *)
Lemma in_three_buckets {T} (f : Z -> Sample -> T) (d : Dataset)
      (b1 b2 b3 : list Sample) (p : T) :
  bucket d "hom_ref" = Ok b1 -> bucket d "het" = Ok b2 -> bucket d "hom_alt" = Ok b3 ->
  In p (map (f 0) b1 ++ map (f 1) b2 ++ map (f 2) b3) ->
  exists i g k s,
    nth_error GENOTYPES i = Some g /\ In (k, s) d /\ genotype s = g /\
    p = f (Z.of_nat i) s.
Proof.
  intros H1 H2 H3 Hin. rewrite !in_app_iff, !in_map_iff in Hin.
  destruct Hin as [(s & E & Hs) | [(s & E & Hs) | (s & E & Hs)]].
  - destruct (bucket_sample _ _ _ _ H1 Hs) as (k & Hk & Hg).
    exists 0%nat, "hom_ref", k, s. auto.
  - destruct (bucket_sample _ _ _ _ H2 Hs) as (k & Hk & Hg).
    exists 1%nat, "het", k, s. auto.
  - destruct (bucket_sample _ _ _ _ H3 Hs) as (k & Hk & Hg).
    exists 2%nat, "hom_alt", k, s. auto.
Qed.

Lemma nth_error_GENOTYPES_lt (i : nat) (g : string) :
  nth_error GENOTYPES i = Some g -> (i < 3)%nat.
Proof.
  intros H. apply (nth_error_Some GENOTYPES i). now rewrite H.
Qed.

Lemma points_from_samples (w : World) (x : float) (y : Z) :
  let drawn_artists := artists (plt.gcf (snd (run create_plot w))) in
  (In (x, y) (points "o" drawn_artists) ->
   exists i g k s,
     nth_error GENOTYPES i = Some g /\ In (k, s) (counts w) /\ genotype s = g /\
     x = fst (slot_x i) /\ y = allele_1_count s) /\
  (In (x, y) (points "x" drawn_artists) ->
   exists i g k s,
     nth_error GENOTYPES i = Some g /\ In (k, s) (counts w) /\ genotype s = g /\
     x = snd (slot_x i) /\ y = allele_2_count s).
Proof.
  destruct (group_total (counts w)) as (b1 & b2 & b3 & Hg & B1 & B2 & B3).
  destruct (observed_in w b1 b2 b3 Hg) as (_ & H1 & H2).
  cbv zeta in *. split; intros Hin.
  - apply H1 in Hin. rewrite points_1_plot_artists in Hin.
    destruct (in_three_buckets (fun i s => (x_1 i, allele_1_count s)) _ _ _ _ _
                B1 B2 B3 Hin) as (i & g & k & s & Hi & Hk & Hgs & E).
    exists i, g, k, s. rewrite (slot_x_spec i (nth_error_GENOTYPES_lt i g Hi)).
    inversion E. auto.
  - apply H2 in Hin. rewrite points_2_plot_artists in Hin.
    destruct (in_three_buckets (fun i s => (x_2 i, allele_2_count s)) _ _ _ _ _
                B1 B2 B3 Hin) as (i & g & k & s & Hi & Hk & Hgs & E).
    exists i, g, k, s. rewrite (slot_x_spec i (nth_error_GENOTYPES_lt i g Hi)).
    inversion E. auto.
Qed.

(** Nothing is drawn that is not in the data: every allele-1 point and every
    allele-2 point on the figure is the count of a sample of the dataset,
    at the x position of the category that is the sample's genotype. This
    holds for every dataset, valid or not. *)
Theorem drawn_points_are_samples (w : World) (x : float) (y : Z) :
  let drawn_artists := artists (plt.gcf (snd (run create_plot w))) in
  (In (x, y) (points "o" drawn_artists) ->
   exists i g k s,
     nth_error GENOTYPES i = Some g /\ In (k, s) (counts w) /\ genotype s = g /\
     x = fst (slot_x i) /\ y = allele_1_count s) /\
  (In (x, y) (points "x" drawn_artists) ->
   exists i g k s,
     nth_error GENOTYPES i = Some g /\ In (k, s) (counts w) /\ genotype s = g /\
     x = snd (slot_x i) /\ y = allele_2_count s).
Proof. exact (points_from_samples w x y). Qed.

Lemma drawn_points_are_samples_witness :
  exists i g k s,
    nth_error GENOTYPES i = Some g /\ In (k, s) EXAMPLE_DATA /\ genotype s = g /\
    (-0.5)%float = fst (slot_x i) /\ 2 = allele_1_count s.
Proof.
  exact (proj1 (drawn_points_are_samples (world_of EXAMPLE_DATA) (-0.5)%float 2)
           (or_introl eq_refl)).
Defined.

(** The x positions of different categories are different. *)
Lemma slot_x_injective (i j : nat) (g g' : string) :
  nth_error GENOTYPES i = Some g -> nth_error GENOTYPES j = Some g' ->
  fst (slot_x i) = fst (slot_x j) \/ snd (slot_x i) = snd (slot_x j) ->
  g = g'.
Proof.
  intros Hi Hj E.
  destruct i as [| [| [| i]]]; cbn in Hi; [| | | destruct i; discriminate Hi];
    (destruct j as [| [| [| j]]]; cbn in Hj; [| | | destruct j; discriminate Hj]);
    inversion Hi; inversion Hj; subst; try reflexivity;
    cbn in E; destruct E as [E | E]; discriminate E.
Qed.

(** A category without a sample stays empty: when no sample of the dataset
    has the genotype at index i of GENOTYPES, no point is drawn at either
    x position of that category. *)
Theorem empty_category_draws_nothing (w : World) (i : nat) (g : string) (y : Z) :
  nth_error GENOTYPES i = Some g ->
  (forall k s, In (k, s) (counts w) -> genotype s <> g) ->
  let drawn_artists := artists (plt.gcf (snd (run create_plot w))) in
  ~ In (fst (slot_x i), y) (points "o" drawn_artists) /\
  ~ In (snd (slot_x i), y) (points "x" drawn_artists).
Proof.
  intros Hi Hnone. cbv zeta.
  destruct (points_from_samples w (fst (slot_x i)) y) as [H1 _].
  destruct (points_from_samples w (snd (slot_x i)) y) as [_ H2].
  split; intros Hin.
  - destruct (H1 Hin) as (j & g' & k & s & Hj & Hk & Hg & E & _).
    apply (Hnone k s Hk). rewrite Hg. symmetry.
    exact (slot_x_injective i j g g' Hi Hj (or_introl E)).
  - destruct (H2 Hin) as (j & g' & k & s & Hj & Hk & Hg & E & _).
    apply (Hnone k s Hk). rewrite Hg. symmetry.
    exact (slot_x_injective i j g g' Hi Hj (or_intror E)).
Qed.

Lemma empty_category_draws_nothing_witness :
  ~ In ((-0.5)%float, 4)
       (points "o" (artists (plt.gcf (snd (run create_plot
                      (world_of [("3", mkSample "het" 4 40)])))))).
Proof.
  refine (proj1 (empty_category_draws_nothing (world_of [("3", mkSample "het" 4 40)])
                   0 "hom_ref" 4 eq_refl _)).
  intros k s Hin. cbn in Hin. destruct Hin as [E | []]. inversion E. discriminate.
Defined.

(** Every segment on the figure joins the two counts of one sample of the
    dataset, from the allele-1 position to the allele-2 position of the
    category that is the sample's genotype, in that category's colour: no
    segment links two samples or two categories. *)
Theorem drawn_segments_join_one_sample (w : World)
        (seg : list float * list Z * string) :
  In seg (segments (artists (plt.gcf (snd (run create_plot w))))) ->
  exists i g k s colour,
    nth_error GENOTYPES i = Some g /\ In (k, s) (counts w) /\ genotype s = g /\
    Py.getitem GENOTYPE_COLOURS g = Ok colour /\
    seg = ([fst (slot_x i); snd (slot_x i)],
           [allele_1_count s; allele_2_count s], colour).
Proof.
  destruct (group_total (counts w)) as (b1 & b2 & b3 & Hg & B1 & B2 & B3).
  destruct (observed_in w b1 b2 b3 Hg) as (Hs & _ & _).
  intros Hseg. apply Hs in Hseg. revert Hseg.
  rewrite segments_plot_artists, !in_app_iff, !in_map_iff.
  intros [(s & E & Hin) | [(s & E & Hin) | (s & E & Hin)]].
  - destruct (bucket_sample _ _ _ _ B1 Hin) as (k & Hk & Hgs).
    exists 0%nat, "hom_ref", k, s, "blue". repeat split; auto.
  - destruct (bucket_sample _ _ _ _ B2 Hin) as (k & Hk & Hgs).
    exists 1%nat, "het", k, s, "orange". repeat split; auto.
  - destruct (bucket_sample _ _ _ _ B3 Hin) as (k & Hk & Hgs).
    exists 2%nat, "hom_alt", k, s, "red". repeat split; auto.
Qed.

Lemma drawn_segments_join_one_sample_witness :
  exists i g k s colour,
    nth_error GENOTYPES i = Some g /\ In (k, s) EXAMPLE_DATA /\ genotype s = g /\
    Py.getitem GENOTYPE_COLOURS g = Ok colour /\
    ([(-0.5)%float; 0.5%float], [2; 4], "blue")
    = ([fst (slot_x i); snd (slot_x i)], [allele_1_count s; allele_2_count s], colour).
Proof.
  exact (drawn_segments_join_one_sample (world_of EXAMPLE_DATA)
           ([(-0.5)%float; 0.5%float], [2; 4], "blue") (or_introl eq_refl)).
Defined.

Lemma well_shaped_genotype_artists (i : Z) (colour : string) (data : list Sample)
      (a : Artist) :
  In a (genotype_artists i colour data) -> well_shaped a.
Proof.
  unfold genotype_artists. cbn [app In].
  intros [<- | [<- | Hin]]; cbn.
  - now rewrite repeat_length, length_map.
  - now rewrite repeat_length, length_map.
  - unfold join_artists in Hin. apply in_map_iff in Hin.
    destruct Hin as (s & <- & _). cbn. auto.
Qed.

(** Every scatter call of create_plot passes x and y lists of the same
    length, and every plot call passes two x values and two y values, for
    every dataset (also for empty buckets and in the legend). *)
Theorem plot_arguments_well_shaped (w : World) (a : Artist) :
  In a (artists (plt.gcf (snd (run create_plot w)))) -> well_shaped a.
Proof.
  destruct (group_total (counts w)) as (b1 & b2 & b3 & Hg & _).
  destruct (create_plot_prefix w b1 b2 b3 Hg) as (done & rest & tail & -> & E & Ht).
  cbn [plt.gcf drawn figures artists]. intros Hdone.
  assert (Hin : In a (plot_artists b1 b2 b3 ++ legend_artists ++ tail))
    by (rewrite E; apply in_or_app; now left).
  clear Hdone. revert Hin.
  rewrite !in_app_iff. intros [Hin | [Hin | Hin]].
  - unfold plot_artists in Hin. rewrite !in_app_iff in Hin.
    destruct Hin as [Hin | [Hin | Hin]];
      exact (well_shaped_genotype_artists _ _ _ a Hin).
  - cbn in Hin. destruct Hin as [<- | [<- | [<- | []]]]; cbn; auto.
  - destruct Ht as [-> | (m & ->)]; [contradiction |].
    cbn in Hin. repeat (destruct Hin as [<- | Hin]; [exact I |]). contradiction.
Qed.

Lemma plot_arguments_well_shaped_witness :
  length [(-0.5)%float; (-0.5)%float] = length [2; 3].
Proof.
  exact (plot_arguments_well_shaped (world_of EXAMPLE_DATA)
           (Scatter (mkPathCollection [(-0.5)%float; (-0.5)%float] [2; 3]
                                      "blue" "o" MARKER_SIZE))
           (or_introl eq_refl)).
Defined.

(** The genotype labels: when create_plot returns, it has written for the
    category at index i its label of GENOTYPE_LABELS at x = 2*i, y = -1, in
    the colour of GENOTYPE_COLOURS that its points and segments have;
    x = 2*i is midway between the category's two allele positions. *)
Theorem genotype_label_drawn (w : World) (i : nat) (g : string) :
  fst (run create_plot w) = Ok tt ->
  nth_error GENOTYPES i = Some g ->
  exists label colour,
    Py.getitem GENOTYPE_LABELS g = Ok label /\
    Py.getitem GENOTYPE_COLOURS g = Ok colour /\
    In (Text (Z.of_nat i * GENOTYPE_SPACING) (-1) label colour "center" "top" 10 "bold")
       (artists (plt.gcf (snd (run create_plot w)))) /\
    PrimFloat.div (PrimFloat.add (fst (slot_x i)) (snd (slot_x i))) 2%float
    = Py.float_of_int (Z.of_nat i * GENOTYPE_SPACING).
Proof.
  intros Hr Hi.
  destruct (group_total (counts w)) as (b1 & b2 & b3 & Hg & _).
  destruct (create_plot_returned w b1 b2 b3 Hg Hr) as (m & _ & ->).
  cbn [plt.gcf drawn figures artists].
  destruct i as [| [| [| i]]]; cbn in Hi;
    [| | | destruct i; discriminate Hi ]; inversion Hi; subst g;
    do 2 eexists; (split; [reflexivity |]); (split; [reflexivity |]);
    (split; [| reflexivity]); rewrite !in_app_iff; right; right;
    cbn; auto 6.
Qed.

Lemma genotype_label_drawn_witness :
  exists label colour,
    Py.getitem GENOTYPE_LABELS "het" = Ok label /\
    Py.getitem GENOTYPE_COLOURS "het" = Ok colour /\
    In (Text 2 (-1) label colour "center" "top" 10 "bold")
       (artists (plt.gcf (snd (run create_plot (world_of EXAMPLE_DATA))))).
Proof.
  assert (Hr : fst (run create_plot (world_of EXAMPLE_DATA)) = Ok tt) by reflexivity.
  destruct (genotype_label_drawn (world_of EXAMPLE_DATA) 1 "het" Hr eq_refl)
    as (label & colour & Hl & Hc & Hin & _).
  exists label, colour. split; [exact Hl |]. split; [exact Hc | exact Hin].
Defined.

(* ------------------------------------------------------------------ *)
(** ** Further properties of create_plot: datasets that are not valid *)

Lemma valid_genotype_false (g : string) :
  valid_genotype g = false ->
  String.eqb g "hom_ref" = false /\ String.eqb g "het" = false /\
  String.eqb g "hom_alt" = false.
Proof.
  unfold valid_genotype, GENOTYPES. cbn [existsb].
  destruct (String.eqb g "hom_ref"), (String.eqb g "het"), (String.eqb g "hom_alt");
    cbn; intros H; try discriminate H; auto.
Qed.

(** The three buckets, one after the other, hold the records with a
    recognised genotype, each once. *)
Lemma buckets_permutation_recognised (l : list Sample) :
  Permutation
    (filter (fun s => String.eqb (genotype s) "hom_ref") l
     ++ filter (fun s => String.eqb (genotype s) "het") l
     ++ filter (fun s => String.eqb (genotype s) "hom_alt") l)
    (filter (fun s => valid_genotype (genotype s)) l).
Proof.
  induction l as [| s l IH]; [constructor |].
  cbn [filter]. destruct (valid_genotype (genotype s)) eqn:Hv.
  - apply valid_genotype_In in Hv. cbn [GENOTYPES In] in Hv.
    destruct Hv as [E | [E | [E | []]]]; rewrite <- E; cbn.
    + now constructor.
    + symmetry. apply Permutation_cons_app. now symmetry.
    + symmetry. rewrite app_assoc. apply Permutation_cons_app.
      rewrite <- app_assoc. now symmetry.
  - destruct (valid_genotype_false _ Hv) as (E1 & E2 & E3).
    now rewrite E1, E2, E3.
Qed.

(** On any dataset, valid or not, the grouping returns the three buckets,
    which together hold exactly the records with a recognised genotype,
    each once; the other records are dropped without an error. *)
Theorem grouping_keeps_recognised (d : Dataset) :
  Py.dict_wf d = true ->
  exists b1 b2 b3,
    group_by_genotype d = Ok [("hom_ref", b1); ("het", b2); ("hom_alt", b3)] /\
    Permutation (b1 ++ b2 ++ b3) (recognised d).
Proof.
  intros Hwf. do 3 eexists. split; [exact (group_wf d Hwf) |].
  rewrite !values_samples_of. apply buckets_permutation_recognised.
Qed.

Lemma grouping_keeps_recognised_witness :
  exists b1 b2 b3,
    group_by_genotype [("1", mkSample "het" 4 40); ("7", mkSample "homozygous" 3 5)]
    = Ok [("hom_ref", b1); ("het", b2); ("hom_alt", b3)] /\
    Permutation (b1 ++ b2 ++ b3) [mkSample "het" 4 40].
Proof.
  exact (grouping_keeps_recognised
           [("1", mkSample "het" 4 40); ("7", mkSample "homozygous" 3 5)] eq_refl).
Defined.

(** On any dataset, valid or not, in which the counts of the samples with a
    recognised genotype have floats, create_plot draws one point pair for
    each sample with a recognised genotype and none for the others: the
    numbers of segments, of allele-1 points and of allele-2 points all equal
    the number of recognised samples. *)
Theorem point_pairs_count_recognised (w : World) :
  Py.dict_wf (counts w) = true ->
  drawable (counts w) = true ->
  let drawn_artists := artists (plt.gcf (snd (run create_plot w))) in
  length (segments drawn_artists) = length (recognised (counts w)) /\
  length (points "o" drawn_artists) = length (recognised (counts w)) /\
  length (points "x" drawn_artists) = length (recognised (counts w)).
Proof.
  intros Hwf Hd.
  assert (F : forall g', valid_genotype g' = true ->
                         floats_ok (Py.values (samples_of g' (counts w))) = true).
  { intros g' Hg'. apply (drawable_bucket _ g' _ Hd Hg'). now apply bucket_wf. }
  destruct (observed_create_plot w _ _ _ (group_wf _ Hwf)
              (F "hom_ref" eq_refl) (F "het" eq_refl) (F "hom_alt" eq_refl))
    as (Hs & H1 & H2).
  clear F. cbv zeta. rewrite Hs, H1, H2.
  rewrite segments_plot_artists, points_1_plot_artists, points_2_plot_artists.
  rewrite !length_app, !length_map, !values_samples_of.
  pose proof (Permutation_length (buckets_permutation_recognised (Py.values (counts w))))
    as H.
  rewrite !length_app in H. unfold recognised. repeat split; lia.
Qed.

Lemma point_pairs_count_recognised_witness :
  length (segments (artists (plt.gcf (snd (run create_plot
            (world_of [("1", mkSample "het" 4 40); ("7", mkSample "homozygous" 3 5)]))))))
  = 1%nat.
Proof.
  exact (proj1 (point_pairs_count_recognised
                  (world_of [("1", mkSample "het" 4 40); ("7", mkSample "homozygous" 3 5)])
                  eq_refl eq_refl)).
Defined.

(* ------------------------------------------------------------------ *)
(** ** Further properties of create_plot: the y-axis upper bound *)

Lemma list_gt_asym (a b : list Z) : Py.list_gt a b = true -> Py.list_gt b a = false.
Proof.
  revert b. induction a as [| x a IH]; intros [| y b]; cbn; try congruence.
  destruct (Z.eqb_spec x y) as [-> | Hne].
  - rewrite Z.eqb_refl. apply IH.
  - destruct (Z.eqb_spec y x); [congruence |]. intros H.
    apply Z.gtb_gt in H. destruct (Z.gtb_spec y x); [lia | reflexivity].
Qed.

(** "Not greater" on lists of ints is transitive. *)
Lemma list_gt_false_trans (a b c : list Z) :
  Py.list_gt a b = false -> Py.list_gt b c = false -> Py.list_gt a c = false.
Proof.
  revert b c. induction a as [| x a IH]; intros [| y b] [| z c]; cbn;
    try congruence.
  destruct (Z.eqb_spec x y) as [-> | Hxy], (Z.eqb_spec y z) as [-> | Hyz];
    intros H1 H2.
  - eapply IH; eassumption.
  - exact H2.
  - destruct (Z.eqb_spec x z); [congruence | exact H1].
  - destruct (Z.gtb_spec x y); [discriminate |].
    destruct (Z.gtb_spec y z); [discriminate |].
    destruct (Z.eqb_spec x z); [lia |]. destruct (Z.gtb_spec x z); [lia | reflexivity].
Qed.

(** Two lists of ints, neither greater than the other, are equal. *)
Lemma list_gt_antisym (a b : list Z) :
  Py.list_gt a b = false -> Py.list_gt b a = false -> a = b.
Proof.
  revert b. induction a as [| x a IH]; intros [| y b]; cbn; try congruence.
  destruct (Z.eqb_spec x y) as [-> | Hxy].
  - rewrite Z.eqb_refl. intros H1 H2. f_equal. now apply IH.
  - destruct (Z.eqb_spec y x); [congruence |].
    destruct (Z.gtb_spec x y); [discriminate |].
    destruct (Z.gtb_spec y x); [discriminate | lia].
Qed.

(** max returns an item that no item of the list is greater than. *)
Lemma fold_left_greatest (l : list (list Z)) (a x : list Z) :
  In x (a :: l) ->
  Py.list_gt x (fold_left (fun best y => if Py.list_gt y best then y else best) l a)
  = false.
Proof.
  revert a x. induction l as [| y l IH]; intros a x Hin; cbn [fold_left].
  - destruct Hin as [<- | []].
    destruct (Py.list_gt a a) eqn:E; [| reflexivity].
    now rewrite (list_gt_asym a a E) in E.
  - destruct (Py.list_gt y a) eqn:E.
    + destruct Hin as [<- | Hin].
      * apply (list_gt_false_trans a y); [now apply list_gt_asym |].
        apply IH. now left.
      * apply IH. exact Hin.
    + destruct Hin as [<- | [<- | Hin]].
      * apply IH. now left.
      * apply (list_gt_false_trans y a); [exact E |]. apply IH. now left.
      * apply IH. now right.
Qed.

Lemma max_greatest (l : list (list Z)) (b x : list Z) :
  Py.max Py.list_gt l = Ok b -> In x l -> Py.list_gt x b = false.
Proof.
  destruct l as [| a l]; cbn [Py.max]; intros H Hin; [discriminate |].
  inversion H. now apply fold_left_greatest.
Qed.

Lemma pair_not_gt (x1 x2 y1 y2 : Z) :
  Py.list_gt [x1; x2] [y1; y2] = false -> x1 < y1 \/ (x1 = y1 /\ x2 <= y2).
Proof.
  cbn. destruct (Z.eqb_spec x1 y1) as [-> | Hne].
  - destruct (Z.eqb_spec x2 y2) as [-> | Hne2]; [lia |].
    destruct (Z.gtb_spec x2 y2); [discriminate | lia].
  - destruct (Z.gtb_spec x1 y1); [discriminate | lia].
Qed.

(** What line 119 computes on a non-empty dataset: the larger count of a
    sample whose pair of counts no other pair is greater than. *)
Lemma max_value_of_greatest (d : Dataset) :
  d <> [] ->
  exists s,
    In s (Py.values d) /\
    max_value_of d = Ok (Z.max (allele_1_count s) (allele_2_count s)) /\
    forall s', In s' (Py.values d) ->
      Py.list_gt [allele_1_count s'; allele_2_count s']
                 [allele_1_count s; allele_2_count s] = false.
Proof.
  intros Hne. unfold max_value_of.
  destruct (Py.max Py.list_gt
              (map (fun sample => [allele_1_count sample; allele_2_count sample])
                   (Py.values d))) as [best | e] eqn:E.
  - pose proof (max_In _ _ _ E) as Hin. apply in_map_iff in Hin.
    destruct Hin as (s & <- & Hs). exists s. split; [assumption |]. split.
    + cbn. f_equal. destruct (Z.gtb_spec (allele_2_count s) (allele_1_count s)); lia.
    + intros s' Hs'. apply (max_greatest _ _ _ E).
      apply (in_map (fun sample => [allele_1_count sample; allele_2_count sample])).
      exact Hs'.
  - destruct d as [| [k s] d]; [contradiction | discriminate].
Qed.

Lemma fold_left_max_ge (l : list Sample) (m0 : Z) :
  let m := fold_left (fun m s' => Z.max m (Z.max (allele_1_count s') (allele_2_count s')))
                     l m0 in
  m0 <= m /\
  forall s, In s l -> allele_1_count s <= m /\ allele_2_count s <= m.
Proof.
  revert m0. induction l as [| s' l IH]; intros m0; cbn [fold_left].
  - split; [lia | contradiction].
  - destruct (IH (Z.max m0 (Z.max (allele_1_count s') (allele_2_count s')))) as [H0 H].
    cbv zeta in *. split; [lia |].
    intros s [<- | Hin]; [lia | now apply H].
Qed.

Lemma global_max_ge (d : Dataset) (s : Sample) :
  In s (Py.values d) ->
  allele_1_count s <= global_max d /\ allele_2_count s <= global_max d.
Proof.
  unfold global_max. destruct (Py.values d) as [| s0 l]; [contradiction |].
  pose proof (fold_left_max_ge l (Z.max (allele_1_count s0) (allele_2_count s0)))
    as [H0 H].
  cbv zeta in *. intros [<- | Hin]; [lia | now apply H].
Qed.

Lemma fold_left_max_le (l : list Sample) (m0 M : Z) :
  m0 <= M ->
  (forall s, In s l -> allele_1_count s <= M /\ allele_2_count s <= M) ->
  fold_left (fun m s' => Z.max m (Z.max (allele_1_count s') (allele_2_count s'))) l m0
  <= M.
Proof.
  revert m0. induction l as [| s' l IH]; intros m0 H0 H; cbn [fold_left]; [exact H0 |].
  apply IH.
  - pose proof (H s' (or_introl eq_refl)). lia.
  - intros s Hs. apply H. now right.
Qed.

Lemma global_max_le (d : Dataset) (M : Z) :
  d <> [] ->
  (forall s, In s (Py.values d) -> allele_1_count s <= M /\ allele_2_count s <= M) ->
  global_max d <= M.
Proof.
  intros Hne H. unfold global_max.
  destruct d as [| [k s0] d]; [contradiction |]. cbn [Py.values map snd] in *.
  apply fold_left_max_le.
  - pose proof (H s0 (or_introl eq_refl)). lia.
  - intros s Hs. apply H. now right.
Qed.

Lemma values_In (d : Dataset) (k : string) (s : Sample) :
  In (k, s) d -> In s (Py.values d).
Proof. intros H. unfold Py.values. change s with (snd (k, s)). now apply in_map. Qed.

Lemma max_value_of_ok_nonempty (d : Dataset) (m : Z) :
  max_value_of d = Ok m -> d <> [].
Proof. intros H ->. discriminate H. Qed.

Lemma ylim_top_spec (w : World) :
  fst (run create_plot w) = Ok tt ->
  exists top,
    ylims (artists (plt.gcf (snd (run create_plot w)))) = [(0, top)] /\
    (exists k s, In (k, s) (counts w) /\
                 top = Z.max (allele_1_count s) (allele_2_count s) + 10) /\
    top <= global_max (counts w) + 10 /\
    (forall k s, In (k, s) (counts w) -> allele_1_count s + 10 <= top).
Proof.
  intros Hr.
  destruct (proj1 (ylims_outcome w) Hr) as (m & Hm0 & Hy).
  destruct (max_value_of_greatest (counts w) (max_value_of_ok_nonempty _ _ Hm0))
    as (s & Hs & Hm & Hgt).
  rewrite Hm in Hm0. inversion Hm0 as [E]. rewrite <- E in Hy.
  eexists. split; [exact Hy |]. split; [| split].
  - unfold Py.values in Hs. apply in_map_iff in Hs.
    destruct Hs as ([k s0] & E' & Hin). cbn in E'. subst s0. eauto.
  - pose proof (global_max_ge _ _ Hs). lia.
  - intros k s' Hin. pose proof (pair_not_gt _ _ _ _ (Hgt s' (values_In _ _ _ Hin))). lia.
Qed.

(** The y-axis upper bound that create_plot has set when it returns is the
    larger count of one of the samples plus 10; it is never above the
    greatest count plus 10, and never below any allele-1 count plus 10. *)
Theorem ylim_upper_bounds (w : World) :
  fst (run create_plot w) = Ok tt ->
  exists top,
    ylims (artists (plt.gcf (snd (run create_plot w)))) = [(0, top)] /\
    (exists k s, In (k, s) (counts w) /\
                 top = Z.max (allele_1_count s) (allele_2_count s) + 10) /\
    top <= global_max (counts w) + 10 /\
    (forall k s, In (k, s) (counts w) -> allele_1_count s + 10 <= top).
Proof. exact (ylim_top_spec w). Qed.

Lemma ylim_upper_bounds_witness :
  exists top,
    ylims (artists (plt.gcf (snd (run create_plot (world_of EXAMPLE_DATA))))) = [(0, top)] /\
    top <= global_max EXAMPLE_DATA + 10.
Proof.
  assert (Hr : fst (run create_plot (world_of EXAMPLE_DATA)) = Ok tt) by reflexivity.
  destruct (ylim_upper_bounds (world_of EXAMPLE_DATA) Hr) as (top & Hy & _ & Hle & _).
  exists top. split; [exact Hy | exact Hle].
Defined.

(** When create_plot returns and no allele-2 count exceeds every allele-1
    count, the upper bound is the greatest count over all samples and both
    allele slots, plus 10. *)
Theorem ylim_upper_exact (w : World) :
  fst (run create_plot w) = Ok tt ->
  (forall k s, In (k, s) (counts w) ->
     exists k' s', In (k', s') (counts w) /\ allele_2_count s <= allele_1_count s') ->
  ylims (artists (plt.gcf (snd (run create_plot w))))
  = [(0, global_max (counts w) + 10)].
Proof.
  intros Hr Hcov.
  destruct (ylim_top_spec w Hr) as (top & Hy & (k0 & s0 & Hin0 & _) & Hle & Hge).
  rewrite Hy. do 2 f_equal.
  assert (global_max (counts w) <= top - 10); [| lia].
  apply global_max_le; [intros E; rewrite E in Hin0; contradiction |].
  intros s Hs. unfold Py.values in Hs. apply in_map_iff in Hs.
  destruct Hs as ([k s1] & E & Hin). cbn in E. subst s1.
  destruct (Hcov k s Hin) as (k' & s' & Hin' & Hle').
  pose proof (Hge k s Hin). pose proof (Hge k' s' Hin'). lia.
Qed.

Lemma ylim_upper_exact_witness :
  ylims (artists (plt.gcf (snd (run create_plot
           (world_of [("a", mkSample "het" 5 1); ("b", mkSample "het" 4 3)])))))
  = [(0, 15)].
Proof.
  apply (ylim_upper_exact (world_of [("a", mkSample "het" 5 1); ("b", mkSample "het" 4 3)])).
  - reflexivity.
  - intros k s Hin. exists "a", (mkSample "het" 5 1). split; [now left |].
    cbn in Hin. destruct Hin as [E | [E | []]]; inversion E; cbn; lia.
Defined.

(** When create_plot returns on a dataset without negative counts, the
    y-axis limits are well ordered, from 0 up to at least 10, and every
    allele-1 count lies between them. *)
Theorem ylim_well_ordered (w : World) :
  fst (run create_plot w) = Ok tt ->
  nonneg_counts (counts w) = true ->
  exists top,
    ylims (artists (plt.gcf (snd (run create_plot w)))) = [(0, top)] /\
    10 <= top /\
    forall k s, In (k, s) (counts w) -> 0 <= allele_1_count s <= top.
Proof.
  intros Hr Hnn.
  destruct (ylim_top_spec w Hr) as (top & Hy & (k0 & s0 & Hin0 & _) & _ & Hge).
  unfold nonneg_counts in Hnn. rewrite forallb_forall in Hnn.
  assert (H1 : forall k s, In (k, s) (counts w) -> 0 <= allele_1_count s).
  { intros k s Hin. specialize (Hnn s (values_In _ _ _ Hin)).
    apply andb_true_iff in Hnn. destruct Hnn as [H _]. now apply Z.leb_le. }
  exists top. split; [exact Hy |]. split.
  - pose proof (H1 k0 s0 Hin0). pose proof (Hge k0 s0 Hin0). lia.
  - intros k s Hin. pose proof (H1 k s Hin). pose proof (Hge k s Hin). lia.
Qed.

Lemma ylim_well_ordered_witness :
  exists top,
    ylims (artists (plt.gcf (snd (run create_plot (world_of EXAMPLE_DATA))))) = [(0, top)] /\
    10 <= top.
Proof.
  assert (Hr : fst (run create_plot (world_of EXAMPLE_DATA)) = Ok tt) by reflexivity.
  destruct (ylim_well_ordered (world_of EXAMPLE_DATA) Hr eq_refl) as (top & Hy & Hle & _).
  exists top. split; [exact Hy | exact Hle].
Defined.

Lemma max_value_of_permutation (d d' : Dataset) :
  Permutation d d' -> max_value_of d = max_value_of d'.
Proof.
  intros Hp. destruct d as [| ks d0].
  - apply Permutation_nil in Hp. now subst.
  - assert (Hne : ks :: d0 <> []) by discriminate.
    assert (Hne' : d' <> []).
    { intros ->. apply Permutation_sym, Permutation_nil in Hp. discriminate. }
    destruct (max_value_of_greatest _ Hne) as (s & Hs & Hm & Hgt).
    destruct (max_value_of_greatest _ Hne') as (s' & Hs' & Hm' & Hgt').
    assert (Hv : Permutation (Py.values (ks :: d0)) (Py.values d'))
      by (unfold Py.values; now apply Permutation_map).
    assert (E : [allele_1_count s; allele_2_count s]
                = [allele_1_count s'; allele_2_count s']).
    { apply list_gt_antisym.
      - apply Hgt'. now apply (Permutation_in _ Hv).
      - apply Hgt. now apply (Permutation_in _ (Permutation_sym Hv)). }
    inversion E as [[E1 E2]]. rewrite Hm, Hm', E1, E2. reflexivity.
Qed.

Lemma forallb_permutation {A} (f : A -> bool) (l l' : list A) :
  Permutation l l' -> forallb f l = forallb f l'.
Proof.
  induction 1 as [| x l l' _ IH | x y l | l l' l'' _ IH1 _ IH2]; cbn.
  - reflexivity.
  - now rewrite IH.
  - destruct (f x), (f y); reflexivity.
  - now rewrite IH1.
Qed.

Lemma forallb_filter_implb {A} (f p : A -> bool) (l : list A) :
  forallb f (filter p l) = forallb (fun x => implb (p x) (f x)) l.
Proof.
  induction l as [| x l IH]; cbn; [reflexivity |].
  destruct (p x); cbn; now rewrite IH.
Qed.

Lemma drawable_permutation (d d' : Dataset) :
  Permutation d d' -> drawable d = drawable d'.
Proof.
  intros Hp. unfold drawable, floats_ok, recognised.
  rewrite !forallb_filter_implb. apply forallb_permutation.
  unfold Py.values. now apply Permutation_map.
Qed.

(** How create_plot ends on a dict, from the dataset alone. *)
Lemma create_plot_outcome_wf (w : World) :
  Py.dict_wf (counts w) = true ->
  fst (run create_plot w)
  = if drawable (counts w)
    then match max_value_of (counts w) with
         | Ok max_value =>
             if Py.np_object_int (max_value + 10) then Raise TypeError else Ok tt
         | Raise _ => Raise ValueError
         end
    else Raise OverflowError.
Proof.
  intros Hwf. rewrite (create_plot_outcome w _ _ _ (group_wf _ Hwf)).
  assert (E : floats_ok (Py.values (samples_of "hom_ref" (counts w)))
              && floats_ok (Py.values (samples_of "het" (counts w)))
              && floats_ok (Py.values (samples_of "hom_alt" (counts w)))
              = drawable (counts w)).
  { unfold drawable, floats_ok. rewrite <- andb_assoc, <- !forallb_app.
    apply forallb_permutation. rewrite !values_samples_of.
    apply buckets_permutation_recognised. }
  rewrite E. destruct (drawable (counts w)); [| reflexivity].
  destruct (max_value_of (counts w)) as [m | e] eqn:Hm; [reflexivity |].
  now rewrite (max_value_of_raises _ _ Hm).
Qed.

(** On a list that holds a key twice the order can matter: the lookups of
    line 85 return the first record of the key. *)
Example order_matters_for_repeated_keys :
  fst (run create_plot (world_of [("a", mkSample "het" 1 1);
                                  ("a", mkSample "het" (2 ^ 1024) 1)]))
  = Raise TypeError /\
  fst (run create_plot (world_of [("a", mkSample "het" (2 ^ 1024) 1);
                                  ("a", mkSample "het" 1 1)]))
  = Raise OverflowError.
Proof. vm_compute. split; reflexivity. Qed.

(** For dict objects, the outcome of create_plot and the y-axis limits it
    sets do not depend on the order of the samples in the dataset. *)
Theorem ylim_independent_of_order (w w' : World) :
  Py.dict_wf (counts w) = true ->
  Py.dict_wf (counts w') = true ->
  Permutation (counts w) (counts w') ->
  fst (run create_plot w) = fst (run create_plot w') /\
  ylims (artists (plt.gcf (snd (run create_plot w))))
  = ylims (artists (plt.gcf (snd (run create_plot w')))).
Proof.
  intros Hwf Hwf' Hp.
  assert (Hfst : fst (run create_plot w) = fst (run create_plot w')).
  { rewrite (create_plot_outcome_wf w Hwf), (create_plot_outcome_wf w' Hwf').
    now rewrite (drawable_permutation _ _ Hp), (max_value_of_permutation _ _ Hp). }
  split; [exact Hfst |].
  destruct (ylims_outcome w) as [Hok Hraise], (ylims_outcome w') as [Hok' Hraise'].
  destruct (fst (run create_plot w)) as [[] | e] eqn:E.
  - destruct (Hok eq_refl) as (m & Hm & ->).
    destruct (Hok' (eq_sym Hfst)) as (m' & Hm' & ->).
    rewrite (max_value_of_permutation _ _ Hp), Hm' in Hm. now inversion Hm.
  - rewrite Hraise by discriminate. rewrite Hraise'; [reflexivity |].
    rewrite <- Hfst. discriminate.
Qed.

Lemma ylim_independent_of_order_witness :
  ylims (artists (plt.gcf (snd (run create_plot
           (world_of [("a", mkSample "het" 5 1); ("b", mkSample "het" 4 100)])))))
  = ylims (artists (plt.gcf (snd (run create_plot
           (world_of [("b", mkSample "het" 4 100); ("a", mkSample "het" 5 1)]))))).
Proof.
  exact (proj2 (ylim_independent_of_order
                  (world_of [("a", mkSample "het" 5 1); ("b", mkSample "het" 4 100)])
                  (world_of [("b", mkSample "het" 4 100); ("a", mkSample "het" 5 1)])
                  eq_refl eq_refl
                  (perm_swap _ _ [] : Permutation
                     [("a", mkSample "het" 5 1); ("b", mkSample "het" 4 100)]
                     [("b", mkSample "het" 4 100); ("a", mkSample "het" 5 1)]))).
Defined.

(** How create_plot ends on a dict: with OverflowError when a count of a
    sample with a recognised genotype has no float; otherwise with
    ValueError when the max computation raises, which is when the dataset
    is empty; otherwise with TypeError when the upper bound max_value + 10
    fits neither int64 nor uint64; otherwise it returns. *)
Theorem create_plot_ends (w : World) :
  Py.dict_wf (counts w) = true ->
  fst (run create_plot w)
  = (if drawable (counts w)
     then match max_value_of (counts w) with
          | Ok max_value =>
              if Py.np_object_int (max_value + 10) then Raise TypeError else Ok tt
          | Raise _ => Raise ValueError
          end
     else Raise OverflowError)
  /\ (max_value_of (counts w) = Raise ValueError <-> counts w = []).
Proof.
  intros Hwf. split; [exact (create_plot_outcome_wf w Hwf) |].
  split.
  - intros H. destruct (counts w) as [| ks d] eqn:E; [reflexivity |].
    destruct (max_value_of_nonempty (ks :: d)) as (s & _ & Hm); [discriminate |].
    rewrite Hm in H. discriminate H.
  - intros ->. reflexivity.
Qed.

Lemma create_plot_ends_witness :
  fst (run create_plot (world_of [("1", mkSample "het" 5 (2 ^ 64))])) = Raise TypeError.
Proof.
  exact (proj1 (create_plot_ends (world_of [("1", mkSample "het" 5 (2 ^ 64))]) eq_refl)).
Defined.

(* ------------------------------------------------------------------ *)
(** ** Further properties of the main block *)

Lemma run_savefig (path : string) (dpi : Z) (w : World) (f : Figure) (fs : list Figure) :
  figures w = f :: fs ->
  run (plt.savefig path dpi) w
  = (Ok tt, mkWorld (counts w) (figures w) (written w ++ [mkSavedImage path dpi f])
                    (json_files w)).
Proof.
  intros Hf. unfold plt.savefig, run, plt.set_gcf, plt.gcf. now rewrite Hf.
Qed.

(** When the dataset cannot be read, the main block stops there with the
    exception of read_data: no figure is opened and nothing is written. *)
Theorem main_read_failure (args : Namespace) (w : World) (e : PyExn) :
  fst (run (read_data (input_json args)) w) = Raise e ->
  run (main args) w = (Raise e, w).
Proof. intros H. now rewrite run_main, H. Qed.

Lemma main_read_failure_witness :
  run (main (mkNamespace (Some "missing.json") true)) (start_world [])
  = (Raise (FileNotFoundError "missing.json"), start_world []).
Proof.
  exact (main_read_failure (mkNamespace (Some "missing.json") true) (start_world [])
           (FileNotFoundError "missing.json") eq_refl).
Defined.

(** On datasets whose counts c all have c + 10 in the range of int64 or
    uint64, the main block returns normally exactly when the dataset that
    read_data gave is non-empty; on an empty dataset it raises ValueError
    and writes no file, also when the save flag was given. *)
Theorem main_returns_iff_nonempty (args : Namespace) (w : World) (d : Dataset) :
  fst (run (read_data (input_json args)) w) = Ok d ->
  plottable d = true ->
  (fst (run (main args) w) = Ok tt <-> d <> []) /\
  (d = [] -> fst (run (main args) w) = Raise ValueError /\
             written (snd (run (main args) w)) = written w).
Proof.
  intros Hr Hp. rewrite run_main, Hr.
  destruct (only_draws_create_plot (mkWorld d (figures w) (written w) (json_files w)))
    as (_ & Hw & _).
  cbn [written] in Hw.
  destruct d as [| ks d].
  - assert (E : fst (run create_plot (mkWorld [] (figures w) (written w) (json_files w)))
                = Raise ValueError) by reflexivity.
    destruct (run create_plot _) as [[[] | e] w']; cbn [fst snd] in *;
      [discriminate E |].
    inversion E; subst e. split.
    + split; [discriminate | intros H; now contradiction H].
    + intros _. split; [reflexivity | exact Hw].
  - assert (E : fst (run create_plot
                       (mkWorld (ks :: d) (figures w) (written w) (json_files w)))
                = Ok tt) by (apply create_plot_returns; [discriminate | exact Hp]).
    destruct (run create_plot _) as [[[] | e] w']; cbn [fst snd] in *;
      [| discriminate E].
    split; [| discriminate].
    split; [discriminate |]. intros _. destruct (save_plot args); reflexivity.
Qed.

Lemma main_returns_iff_nonempty_witness :
  fst (run (main (mkNamespace (Some "empty.json") true))
           (start_world [("empty.json", Some [])])) = Raise ValueError /\
  written (snd (run (main (mkNamespace (Some "empty.json") true))
                    (start_world [("empty.json", Some [])]))) = [].
Proof.
  exact (proj2 (main_returns_iff_nonempty (mkNamespace (Some "empty.json") true)
                  (start_world [("empty.json", Some [])]) [] eq_refl eq_refl) eq_refl).
Defined.

(** What the main block leaves behind: the dataset is still the one read
    and the figures are those create_plot left, whether the run returns or
    raises; with the save flag, once create_plot has returned, the one file
    written holds the finished figure of create_plot, which savefig does
    not change. *)
Theorem main_saves_the_drawn_figure (args : Namespace) (w : World) (d : Dataset) :
  fst (run (read_data (input_json args)) w) = Ok d ->
  let plotted := snd (run create_plot (bound_world d w)) in
  counts (snd (run (main args) w)) = d /\
  figures (snd (run (main args) w)) = figures plotted /\
  (fst (run create_plot (bound_world d w)) = Ok tt -> save_plot args = true ->
   written (snd (run (main args) w))
   = written w ++ [mkSavedImage "allele_count_graph.png" 300 (plt.gcf plotted)]).
Proof.
  intros Hr. cbv zeta. unfold bound_world. rewrite run_main, Hr.
  set (w1 := mkWorld d (figures w) (written w) (json_files w)).
  destruct (only_draws_create_plot w1) as (Hc & Hw & _).
  destruct (figures_create_plot w1) as [Hf _].
  destruct (run create_plot w1) as [[[] | e] w'] eqn:E; cbn [fst snd] in *.
  - destruct (save_plot args).
    + rewrite (run_savefig _ _ w' _ _ Hf). cbn [snd counts figures written].
      repeat split; [exact Hc | now rewrite Hw].
    + cbn [snd]. repeat split; [exact Hc | discriminate].
  - repeat split; [exact Hc | discriminate].
Qed.

Lemma main_saves_the_drawn_figure_witness :
  written (snd (run (main (mkNamespace None true)) (start_world [])))
  = [mkSavedImage "allele_count_graph.png" 300
       (plt.gcf (snd (run create_plot (bound_world EXAMPLE_DATA (start_world [])))))].
Proof.
  exact (proj2 (proj2 (main_saves_the_drawn_figure (mkNamespace None true)
                         (start_world []) EXAMPLE_DATA eq_refl)) eq_refl eq_refl).
Defined.
